(** * KMZ generator (app.py): a shallow embedding and its properties

    The program reads geotagged photographs from a directory, extracts
    GPS / heading / timestamp tags from their EXIF tables, and writes a
    KMZ archive holding a KML document with one ground overlay and one
    placemark per photograph.

    Conventions of the embedding:
    - Python [float] values are idealised as rationals [Q]: every
      arithmetic step of the source is kept, rounding is not modelled.
      Division by zero raises [ZeroDivisionError], as in Python.
    - Python exceptions are values of [exn]; an expression that may raise
      lives in [result], a statement that also touches the file system or
      the Streamlit page lives in [M] (state plus exception).
    - Functions of Pillow, datetime and the [str]/[float] built-ins that
      the repository only calls are fields of the class [Runtime].
    - Writes to the file system are assumed to succeed; reads of missing
      files raise. Paths follow [posixpath].
    - A dict that the program iterates over (the EXIF table, the GPS
      sub-block, the tag tables) is a list of bindings in iteration
      order; [gps_info], which is only looked up, is a [gmap]. *)

From Stdlib Require Import ZArith QArith Qabs Lqa Ascii String.
From stdpp Require Import base option list strings gmap.

Set Warnings "-register-all".
Local Open Scope string_scope.
Local Open Scope list_scope.

(** ** Python values and exceptions *)

(** The values that occur in an EXIF table: [None], integers, floats,
    strings, tuples, and a nested table (the GPS sub-block). *)
Inductive pyval :=
| VNone
| VInt (z : Z)
| VFloat (q : Q)
| VStr (s : string)
| VTuple (items : list pyval)
| VDict (items : list (Z * pyval)).

Inductive exn :=
| TypeError
| ValueError (msg : string)
| KeyError
| IndexError
| ZeroDivisionError
| AttributeError
| NameError
| FileNotFoundError
| UnidentifiedImageError
| SameFileError.

Inductive result (A : Type) :=
| Ok (a : A)
| Raise (e : exn).
Arguments Ok {A} a.
Arguments Raise {A} e.

#[global] Instance result_ret : MRet result := @Ok.
#[global] Instance result_bind : MBind result :=
  λ A B f m, match m with Ok a => f a | Raise e => Raise e end.

(** A dict in iteration order: [d.get(k)] is the first binding of [k]. *)
Fixpoint assoc {V : Type} (k : Z) (d : list (Z * V)) : option V :=
  match d with
  | [] => None
  | (k', v) :: d' => if Z.eqb k k' then Some v else assoc k d'
  end.

(** A key of [gps_info] (and a looked-up tag name): [TAGS.get(tag, tag)]
    is the tag's name when the table knows it and the integer tag itself
    otherwise. *)
Definition pykey : Type := string + Z.

Definition tag_lookup (table : list (Z * string)) (tag : Z) : pykey :=
  match assoc tag table with
  | Some name => inl name
  | None => inr tag
  end.

(** [key == "name"] *)
Definition key_is (k : pykey) (name : string) : bool :=
  match k with
  | inl s => bool_decide (s = name)
  | inr _ => false
  end.

(** ** Images, timestamps and documents *)

Definition exif_table : Type := list (Z * pyval).

(** An opened image: what [_getexif()] does on it (raise, [None], or a
    table) and its pixels, row by row. *)
Record pil_image := PilImage {
  img_exif : result (option exif_table);
  img_pixels : list (list Z);
}.

Record datetime := DateTime {
  dt_year : Z; dt_month : Z; dt_day : Z;
  dt_hour : Z; dt_minute : Z; dt_second : Z;
}.

(** The library functions the program calls without defining them. *)
Class Runtime := {
  (** [ExifTags.TAGS] and [ExifTags.GPSTAGS], in iteration order *)
  TAGS : list (Z * string);
  GPSTAGS : list (Z * string);
  (** [float(s)] on a string; [None] is a [ValueError] *)
  float_of_str : string → option Q;
  (** [str(v)] on a value that is not a string *)
  repr : pyval → string;
  (** [datetime.strptime(text, format)] *)
  strptime : string → string → result datetime;
  (** [dt.strftime(format)] *)
  strftime : datetime → string → string;
  (** [datetime.fromtimestamp(t)] *)
  fromtimestamp : Q → datetime;
  (** [image.rotate(angle, expand=...)] *)
  rotate : pil_image → Z → bool → pil_image;
  (** the time stamped on a file that is written *)
  clock : Q;
}.

(** ** The KML document *)

Record ground_overlay := GroundOverlay {
  go_name : string;
  go_href : string;
  go_north : Q;
  go_south : Q;
  go_east : Q;
  go_west : Q;
  go_rotation : Q;
}.

(** An interpolated piece of the placemark description: a string, or a
    number formatted with [.1f] or [.6f]. *)
Inductive fragment :=
| Interp (s : string)
| Fixed1 (x : Q)
| Fixed6 (x : Q).

Inductive altitude_mode := absolute.

Record point := Point {
  pt_name : string;
  pt_coords : list (option Q * option Q * Q);
  pt_description : list fragment;
  pt_icon_href : string;
  pt_altitudemode : altitude_mode;
}.

Inductive feature :=
| Overlay (o : ground_overlay)
| Placemark (p : point).

(** ** The file system and the page *)

Inductive content :=
| Picture (img : pil_image)
| Markup (doc : list feature)
| Zip (entries : list (string * content))
| Blob (data : string).

Record file := File {
  f_content : content;
  f_ctime : Q;
}.

(** A message put on the Streamlit page: the text before the exception
    and the exception that is printed after it. *)
Inductive notice :=
| st_warning (text : string) (e : exn)
| st_error (text : string) (e : exn).

Record world := World {
  files : gmap string file;
  (** [os.listdir]: the entry names of each directory, in the order the
      file system enumerates them *)
  dirs : gmap string (list string);
  page : list notice;
}.

(** Statements: a state transformer that returns or raises. State
    changes made before a raise persist. *)
Definition M (A : Type) : Type := world → result A * world.

#[global] Instance M_ret : MRet M := λ A a w, (Ok a, w).
#[global] Instance M_bind : MBind M :=
  λ A B f m w, match m w with
               | (Ok a, w') => f a w'
               | (Raise e, w') => (Raise e, w')
               end.

Definition lift {A} (r : result A) : M A := λ w, (r, w).
Definition raise {A} (e : exn) : M A := lift (Raise e).

(** [try: body  except Exception as e: handler(e)] *)
Definition try_except {A} (body : M A) (handler : exn → M A) : M A :=
  λ w, match body w with
       | (Ok a, w') => (Ok a, w')
       | (Raise e, w') => handler e w'
       end.

Definition notify (n : notice) : M unit :=
  λ w, (Ok (), World (files w) (dirs w) (page w ++ [n])).

(** ** Python built-ins on values *)

Section Program.
Context {rt : Runtime}.

(** [float(v)] *)
Definition py_float (v : pyval) : result Q :=
  match v with
  | VInt z => Ok (inject_Z z)
  | VFloat q => Ok q
  | VStr s => match float_of_str s with
              | Some q => Ok q
              | None => Raise (ValueError "could not convert string to float")
              end
  | VNone | VTuple _ | VDict _ => Raise TypeError
  end.

(** [str(v)] *)
Definition py_str (v : pyval) : string :=
  match v with
  | VStr s => s
  | _ => repr v
  end.

(** [v[i]] for a literal index [i >= 0] *)
Definition subscript (v : pyval) (i : nat) : result pyval :=
  match v with
  | VTuple items =>
      match items !! i with
      | Some x => Ok x
      | None => Raise IndexError
      end
  | VStr s =>
      match String.get i s with
      | Some c => Ok (VStr (String c EmptyString))
      | None => Raise IndexError
      end
  | VDict items =>
      match assoc (Z.of_nat i) items with
      | Some x => Ok x
      | None => Raise KeyError
      end
  | VNone | VInt _ | VFloat _ => Raise TypeError
  end.

(** [isinstance(v, tuple)] *)
Definition isinstance_tuple (v : pyval) : bool :=
  match v with
  | VTuple _ => true
  | _ => false
  end.

(** [a / b] on floats *)
Definition py_div (a b : Q) : result Q :=
  if Qeq_bool b 0 then Raise ZeroDivisionError else Ok (a / b)%Q.

(** [v == "s"] *)
Definition eq_str (v : pyval) (s : string) : bool :=
  match v with
  | VStr s' => bool_decide (s' = s)
  | _ => false
  end.

(** [v == n] for an integer literal [n] *)
Definition eq_int (v : pyval) (n : Z) : bool :=
  match v with
  | VInt z => Z.eqb z n
  | VFloat q => Qeq_bool q (inject_Z n)
  | _ => false
  end.

(** ** [convert_to_degrees] *)

(** [float(x[0]) / float(x[1]) if isinstance(x, tuple) else float(x)] *)
Definition rational_or_number (x : pyval) : result Q :=
  if isinstance_tuple x then
    n ← subscript x 0 ≫= py_float;
    d ← subscript x 1 ≫= py_float;
    py_div n d
  else py_float x.

(** The body of the [try]. *)
Definition degrees_of (value : pyval) : result Q :=
  d ← subscript value 0 ≫= rational_or_number;
  m ← subscript value 1 ≫= rational_or_number;
  s ← subscript value 2 ≫= rational_or_number;
  mret (d + (m / 60.0) + (s / 3600.0))%Q.

Definition convert_to_degrees (value : pyval) : M (option Q) :=
  try_except
    (q ← lift (degrees_of value); mret (Some q))
    (λ e, notify (st_warning "Error converting GPS value to degrees: " e);;
          mret None).


(** ** Paths and file names ([posixpath], [str.lower], [str.endswith]) *)

Definition is_sep (c : ascii) : bool := Ascii.eqb c "/"%char.

Definition lower_char (c : ascii) : ascii :=
  let n := N_of_ascii c in
  if ((65 <=? n) && (n <=? 90))%N then ascii_of_N (n + 32) else c.

Fixpoint lower (s : string) : string :=
  match s with
  | EmptyString => EmptyString
  | String c rest => String (lower_char c) (lower rest)
  end.

Fixpoint drop_chars (n : nat) (s : string) : string :=
  match n, s with
  | O, _ => s
  | S n', EmptyString => EmptyString
  | S n', String _ rest => drop_chars n' rest
  end.

Definition startswith (s p : string) : bool := String.prefix p s.

Definition endswith (s suffix : string) : bool :=
  (String.length suffix <=? String.length s)%nat
  && String.eqb (drop_chars (String.length s - String.length suffix) s) suffix.

(** [p.rfind("/")]: the index of the last separator, or [-1]. *)
Fixpoint rfind_sep (p : string) : Z :=
  match p with
  | EmptyString => -1
  | String c rest =>
      let r := rfind_sep rest in
      if (0 <=? r)%Z then (r + 1)%Z else if is_sep c then 0%Z else (-1)%Z
  end.

(** [os.path.basename(p)]: [p[p.rfind("/") + 1:]] *)
Definition basename (p : string) : string :=
  drop_chars (Z.to_nat (rfind_sep p + 1)) p.

(** [os.path.join(a, b)] *)
Definition join (a b : string) : string :=
  if startswith b "/" then b
  else if String.eqb a "" || endswith a "/" then a +:+ b
  else a +:+ "/" +:+ b.

(** [f.lower().endswith(('.jpg', '.jpeg', '.png'))] *)
Definition is_candidate (f : string) : bool :=
  let l := lower f in
  endswith l ".jpg" || endswith l ".jpeg" || endswith l ".png".

(** ** File-system calls *)

Definition set_files (fs : gmap string file) (w : world) : world :=
  World fs (dirs w) (page w).

(** [os.listdir(path)] *)
Definition listdir (path : string) : M (list string) :=
  λ w, match dirs w !! path with
       | Some names => (Ok names, w)
       | None => (Raise FileNotFoundError, w)
       end.

(** [os.path.exists(path)] *)
Definition path_exists (path : string) : M bool :=
  λ w, (Ok (bool_decide (is_Some (files w !! path))), w).

Definition read_file (path : string) : M file :=
  λ w, match files w !! path with
       | Some f => (Ok f, w)
       | None => (Raise FileNotFoundError, w)
       end.

Definition update_files (g : gmap string file → gmap string file) : M unit :=
  λ w, (Ok (), set_files (g (files w)) w).

Definition write_file (path : string) (c : content) : M unit :=
  update_files (insert path (File c clock)).

(** [Image.open(path)] *)
Definition Image_open (path : string) : M pil_image :=
  f ← read_file path;
  match f_content f with
  | Picture img => mret img
  | _ => raise UnidentifiedImageError
  end.

(** [image.save(path)] *)
Definition Image_save (img : pil_image) (path : string) : M unit :=
  write_file path (Picture img).

(** [os.path.getctime(path)] *)
Definition getctime (path : string) : M Q :=
  f ← read_file path; mret (f_ctime f).

(** [os.rename(src, dst)] *)
Definition os_rename (src dst : string) : M unit :=
  f ← read_file src;
  update_files (λ fs, <[dst := File (f_content f) clock]> (delete src fs)).

(** [shutil.copy2(src, dst)] *)
Definition copy2 (src dst : string) : M unit :=
  f ← read_file src;
  if String.eqb src dst then raise SameFileError
  else write_file dst (f_content f).

(** [os.remove(path)] *)
Definition os_remove (path : string) : M unit :=
  read_file path;;
  update_files (delete path).

(** ** [correct_image_orientation] *)

(** The [for orientation in ExifTags.TAGS.keys()] loop: the loop variable
    after the loop, [None] while it is unbound. *)
Fixpoint orientation_key (keys : list Z) (bound : option Z) : option Z :=
  match keys with
  | [] => bound
  | k :: rest =>
      if bool_decide (assoc k TAGS = Some "Orientation") then Some k
      else orientation_key rest (Some k)
  end.

Definition correct_image_orientation (image : pil_image) : M pil_image :=
  try_except
    (let orientation := orientation_key (TAGS.*1) None in
     exif ← lift (img_exif image);
     match exif with
     | None | Some [] => mret image
     | Some table =>
         o ← match orientation with
             | Some o => mret o
             | None => raise NameError
             end;
         match assoc o table with
         | None => mret image
         | Some v =>
             if eq_int v 3 then mret (rotate image 180 true)
             else if eq_int v 6 then mret (rotate image 270 true)
             else if eq_int v 8 then mret (rotate image 90 true)
             else mret image
         end
     end)
    (λ e, notify (st_warning "Could not adjust image orientation: " e);;
          mret image).

(** ** [get_gps_metadata] *)

Record metadata := Metadata {
  latitude : option Q;
  longitude : option Q;
  altitude : Q;
  orientation : pyval;
  date_created : string;
}.

(** [value.items()] *)
Definition py_items (value : pyval) : result (list (Z * pyval)) :=
  match value with
  | VDict items => Ok items
  | _ => Raise AttributeError
  end.

(** [not date_taken] *)
Definition unset (date_taken : option string) : bool :=
  match date_taken with
  | None => true
  | Some s => String.eqb s ""
  end.

(** [datetime.strptime(str(value), '%Y:%m:%d %H:%M:%S')
      .strftime('%Y-%m-%d %H:%M:%S')] *)
Definition reformat (value : pyval) : result string :=
  dt ← strptime (py_str value) "%Y:%m:%d %H:%M:%S";
  mret (strftime dt "%Y-%m-%d %H:%M:%S").

(** The [try] inside the tag loop; [except (ValueError, TypeError):
    continue] leaves [date_taken] as it was. *)
Definition scan_date (tag_name : pykey) (value : pyval)
    (date_taken : option string) : result (option string) :=
  let assign : result (option string) := s ← reformat value; mret (Some s) in
  let attempt :=
    if key_is tag_name "DateTimeOriginal" then assign
    else if unset date_taken && key_is tag_name "DateTime" then assign
    else if unset date_taken && key_is tag_name "DateTimeDigitized" then assign
    else Ok date_taken in
  match attempt with
  | Raise (ValueError _) | Raise TypeError => Ok date_taken
  | r => r
  end.

Definition scan_state : Type := gmap pykey pyval * option string.

(** One iteration of [for tag, value in exif_data.items()]. *)
Definition scan_tag (st : scan_state) (item : Z * pyval) : result scan_state :=
  let '(gps_info, date_taken) := st in
  let '(tag, value) := item in
  let tag_name := tag_lookup TAGS tag in
  if key_is tag_name "GPSInfo" then
    items ← py_items value;
    mret (foldl (λ g '(t, val), <[tag_lookup GPSTAGS t := val]> g)
                gps_info items,
          date_taken)
  else if key_is tag_name "DateTime" || key_is tag_name "DateTimeOriginal"
          || key_is tag_name "DateTimeDigitized" then
    d ← scan_date tag_name value date_taken;
    mret (gps_info, d)
  else mret st.

Fixpoint scan_exif (st : scan_state) (items : exif_table) : result scan_state :=
  match items with
  | [] => Ok st
  | item :: rest => st' ← scan_tag st item; scan_exif st' rest
  end.

(** [-x] on a float or [None] *)
Definition py_neg (x : option Q) : result (option Q) :=
  match x with
  | Some q => Ok (Some (- q)%Q)
  | None => Raise TypeError
  end.

(** [d[key]] *)
Definition getitem (d : gmap pykey pyval) (key : string) : result pyval :=
  match d !! inl key with
  | Some v => Ok v
  | None => Raise KeyError
  end.

(** Lines 75-77: the date found in the tags, or the file's creation time. *)
Definition resolve_date (image_path : string) (date_taken : option string) : M string :=
  let created :=
    t ← getctime image_path;
    mret (strftime (fromtimestamp t) "%Y-%m-%d %H:%M:%S") in
  match date_taken with
  | None => created
  | Some s => if String.eqb s "" then created else mret s
  end.

(** Lines 79-100: from the collected GPS tags to the returned dict. *)
Definition locate (gps_info : gmap pykey pyval) (date_taken : string)
    : M (option metadata) :=
  if bool_decide (size gps_info = 0%nat) then mret None
  else if bool_decide (is_Some (gps_info !! inl "GPSLatitude"))
          && bool_decide (is_Some (gps_info !! inl "GPSLongitude")) then
    lat ← lift (getitem gps_info "GPSLatitude") ≫= convert_to_degrees;
    lon ← lift (getitem gps_info "GPSLongitude") ≫= convert_to_degrees;
    lat_ref ← lift (getitem gps_info "GPSLatitudeRef");
    lat ← (if eq_str lat_ref "S" then lift (py_neg lat) else mret lat);
    lon_ref ← lift (getitem gps_info "GPSLongitudeRef");
    lon ← (if eq_str lon_ref "W" then lift (py_neg lon) else mret lon);
    let altitude :=
      default (VTuple [VInt 0; VInt 1]) (gps_info !! inl "GPSAltitude") in
    alt ← lift (rational_or_number altitude);
    mret (Some {| latitude := lat;
                  longitude := lon;
                  altitude := alt;
                  orientation :=
                    default (VInt 0) (gps_info !! inl "GPSImgDirection");
                  date_created := date_taken |})
  else mret None.

Definition get_gps_metadata (image_path : string) : M (option metadata) :=
  try_except
    (image ← Image_open image_path;
     exif_data ← lift (img_exif image);
     match exif_data with
     | None | Some [] => mret None
     | Some exif_data =>
         '(gps_info, date_taken) ← lift (scan_exif (∅, None) exif_data);
         date_taken ← resolve_date image_path date_taken;
         locate gps_info date_taken
     end)
    (λ e, notify (st_error ("Error extracting metadata from " +:+ image_path +:+ ": ") e);;
          mret None).

(** ** [create_kmz_with_fan_overlay] *)

(** [x + y] and [x - y] where [x] is a float or [None] *)
Definition py_add (x : option Q) (y : Q) : result Q :=
  match x with
  | Some q => Ok (q + y)%Q
  | None => Raise TypeError
  end.

Definition py_sub (x : option Q) (y : Q) : result Q :=
  match x with
  | Some q => Ok (q - y)%Q
  | None => Raise TypeError
  end.

(** The local variables the image loop updates. *)
Record loop_state := LoopState {
  kml : list feature;
  kmz_images : list (string * string);
  has_data : bool;
}.

(** [f"{x:.6f}"] where [x] is a float or [None] *)
Definition format_6f (x : option Q) : result fragment :=
  match x with
  | Some q => Ok (Fixed6 q)
  | None => Raise TypeError
  end.

(** The f-string of the placemark description: the interpolated values
    in the order of the template; the constant HTML around them is left
    out. *)
Definition placemark_description (date_created : string) (alt orientation : Q)
    (lat lon : option Q) (image_name : string) : result (list fragment) :=
  lat ← format_6f lat;
  lon ← format_6f lon;
  mret [Interp date_created; Fixed1 alt; Fixed1 orientation; lat; lon;
        Interp image_name].

(** The body of [for image_path in image_paths]. *)
Definition process_image (folder_path : string) (st : loop_state)
    (image_path : string) : M loop_state :=
  metadata ← get_gps_metadata image_path;
  match metadata with
  | None => mret st
  | Some metadata =>
      let has_data := true in
      let lat := latitude metadata in
      let lon := longitude metadata in
      let alt := altitude metadata in
      orientation ← lift (py_float (orientation metadata));
      let date_created := date_created metadata in
      let image_name := basename image_path in
      image ← Image_open image_path;
      corrected_image ← correct_image_orientation image;
      let corrected_image_path := join folder_path image_name in
      Image_save corrected_image corrected_image_path;;
      let overlay_size := 0.0001%Q in
      north ← lift (py_add lat (overlay_size / 2));
      south ← lift (py_sub lat (overlay_size / 2));
      east ← lift (py_add lon (overlay_size / 2));
      west ← lift (py_sub lon (overlay_size / 2));
      let ground_overlay :=
        {| go_name := "Overlay - " +:+ image_name;
           go_href := "Fan.png";
           go_north := north;
           go_south := south;
           go_east := east;
           go_west := west;
           go_rotation := (- Qabs orientation)%Q |} in
      placemark_description ←
        lift (placemark_description date_created alt orientation lat lon image_name);
      let pnt :=
        {| pt_name := image_name;
           pt_coords := [(lon, lat, alt)];
           pt_description := placemark_description;
           pt_icon_href :=
             "http://maps.google.com/mapfiles/kml/paddle/blu-circle.png";
           pt_altitudemode := absolute |} in
      mret {| kml := kml st ++ [Overlay ground_overlay; Placemark pnt];
              kmz_images := kmz_images st ++ [(image_name, corrected_image_path)];
              has_data := has_data |}
  end.

Fixpoint for_each {A S : Type} (body : S → A → M S) (st : S) (xs : list A) : M S :=
  match xs with
  | [] => mret st
  | x :: rest => st' ← body st x; for_each body st' rest
  end.

(** [kmz.write(path, arcname)]: the entry list after the call. The
    archive file on disk holds the entries written so far. *)
Definition kmz_write (output_kmz : string) (entries : list (string * content))
    (path arcname : string) : M (list (string * content)) :=
  f ← read_file path;
  let entries := entries ++ [(arcname, f_content f)] in
  write_file output_kmz (Zip entries);;
  mret entries.

(** The list comprehension over [os.listdir(folder_path)]. *)
Definition image_paths (folder_path : string) (names : list string) : list string :=
  join folder_path <$> filter (λ f, Is_true (is_candidate f)) names.

(** The loop variables before the first image. *)
Definition no_images : loop_state :=
  {| kml := []; kmz_images := []; has_data := false |}.

Definition create_kmz_with_fan_overlay (folder_path output_kmz fan_image_path : string)
    : M unit :=
  names ← listdir folder_path;
  let image_paths := image_paths folder_path names in
  st ← for_each (process_image folder_path) no_images image_paths;
  if negb (has_data st) then
    raise (ValueError "No valid GPS metadata found in the uploaded images.")
  else
    let fan_image_dest := join folder_path "Fan.png" in
    fan ← path_exists fan_image_path;
    (if fan : bool then os_rename fan_image_path fan_image_dest else mret ());;
    let logo_src := "Construct_Solutions_Logo_HALF.png" in
    let logo_dest := join folder_path "Construct_Solutions_Logo_HALF.png" in
    logo ← path_exists logo_src;
    (if logo : bool then copy2 logo_src logo_dest else mret ());;
    let kml_file := join folder_path "doc.kml" in
    write_file kml_file (Markup (kml st));;
    write_file output_kmz (Zip []);;
    entries ← kmz_write output_kmz [] kml_file "doc.kml";
    entries ← for_each (λ entries '(img_name, img_path),
                          kmz_write output_kmz entries img_path img_name)
                       entries (kmz_images st);
    fan ← path_exists fan_image_dest;
    entries ← (if fan : bool then kmz_write output_kmz entries fan_image_dest "Fan.png"
               else mret entries);
    logo ← path_exists logo_dest;
    entries ← (if logo : bool then
                 kmz_write output_kmz entries logo_dest
                           "Construct_Solutions_Logo_HALF.png"
               else mret entries);
    os_remove kml_file.

End Program.

(** ** A concrete runtime

    An excerpt of Pillow's tag tables and small stand-ins for the library
    functions, used to run the program on concrete inputs. The stand-ins
    cover the inputs of the examples: zero-padded timestamps, unsigned
    decimal strings, rotations by multiples of 90 degrees, UTC. *)

Module Sample.

Definition tags : list (Z * string) :=
  [(274, "Orientation"); (306, "DateTime"); (34853, "GPSInfo");
   (36867, "DateTimeOriginal"); (36868, "DateTimeDigitized")]%Z.

Definition gpstags : list (Z * string) :=
  [(0, "GPSVersionID"); (1, "GPSLatitudeRef"); (2, "GPSLatitude");
   (3, "GPSLongitudeRef"); (4, "GPSLongitude"); (5, "GPSAltitudeRef");
   (6, "GPSAltitude"); (16, "GPSImgDirectionRef"); (17, "GPSImgDirection")]%Z.

Definition digit (c : ascii) : option Z :=
  let n := N_of_ascii c in
  if ((48 <=? n) && (n <=? 57))%N then Some (Z.of_N (n - 48)) else None.

(** The number written by a non-empty string of decimal digits. *)
Fixpoint digits (s : string) (acc : Z) : option Z :=
  match s with
  | EmptyString => Some acc
  | String c rest =>
      match digit c with
      | Some d => digits rest (10 * acc + d)
      | None => None
      end
  end.

Definition number (s : string) : option Z :=
  if String.eqb s "" then None else digits s 0.

Definition days_in_month (y m : Z) : Z :=
  if (m =? 2)%Z then
    if ((y mod 4 =? 0) && (negb (y mod 100 =? 0) || (y mod 400 =? 0)))%Z
    then 29 else 28
  else if ((m =? 4) || (m =? 6) || (m =? 9) || (m =? 11))%Z then 30 else 31.

(** [text] against [%Y:%m:%d %H:%M:%S], every field zero-padded. *)
Definition parse_timestamp (text : string) : result datetime :=
  let field (start len : nat) := number (String.substring start len text) in
  let sep (at_ : nat) (c : ascii) :=
    bool_decide (String.get at_ text = Some c) in
  match field 0 4, field 5 2, field 8 2, field 11 2, field 14 2, field 17 2 with
  | Some y, Some m, Some d, Some hh, Some mm, Some ss =>
      if (String.length text =? 19)%nat
         && sep 4 ":"%char && sep 7 ":"%char && sep 10 " "%char
         && sep 13 ":"%char && sep 16 ":"%char
         && ((1 <=? y) && (1 <=? m) && (m <=? 12) && (1 <=? d)
             && (d <=? days_in_month y m) && (hh <? 24) && (mm <? 60)
             && (ss <? 60))%Z
      then Ok (DateTime y m d hh mm ss)
      else Raise (ValueError "time data does not match format")
  | _, _, _, _, _, _ => Raise (ValueError "time data does not match format")
  end.

Definition parse (text format : string) : result datetime :=
  if String.eqb format "%Y:%m:%d %H:%M:%S" then parse_timestamp text
  else Raise (ValueError "unsupported format").

Definition digit_char (d : Z) : string :=
  String (ascii_of_N (48 + Z.to_N (d mod 10))) EmptyString.

Definition pad2 (n : Z) : string := digit_char (n / 10) +:+ digit_char n.
Definition pad4 (n : Z) : string := pad2 (n / 100) +:+ pad2 n.

(** [dt] in the form [%Y-%m-%d %H:%M:%S]. *)
Definition render (dt : datetime) (format : string) : string :=
  pad4 (dt_year dt) +:+ "-" +:+ pad2 (dt_month dt) +:+ "-" +:+ pad2 (dt_day dt)
  +:+ " " +:+ pad2 (dt_hour dt) +:+ ":" +:+ pad2 (dt_minute dt) +:+ ":"
  +:+ pad2 (dt_second dt).

(** Seconds since 1970-01-01 to a UTC calendar date and time. *)
Definition utc (t : Q) : datetime :=
  let secs := (Qnum t / Z.pos (Qden t))%Z in
  let days := (secs / 86400)%Z in
  let rest := (secs mod 86400)%Z in
  let z := (days + 719468)%Z in
  let era := (z / 146097)%Z in
  let doe := (z - era * 146097)%Z in
  let yoe := ((doe - doe / 1460 + doe / 36524 - doe / 146096) / 365)%Z in
  let doy := (doe - (365 * yoe + yoe / 4 - yoe / 100))%Z in
  let mp := ((5 * doy + 2) / 153)%Z in
  let d := (doy - (153 * mp + 2) / 5 + 1)%Z in
  let m := (if (mp <? 10)%Z then mp + 3 else mp - 9)%Z in
  let y := (yoe + era * 400 + (if (m <=? 2)%Z then 1 else 0))%Z in
  DateTime y m d (rest / 3600) (rest mod 3600 / 60) (rest mod 60).

Fixpoint transpose (rows : list (list Z)) : list (list Z) :=
  match rows with
  | [] => []
  | [row] => (λ x, [x]) <$> row
  | row :: rest => zip_with cons row (transpose rest)
  end.

(** A quarter turn counter-clockwise. *)
Definition quarter_turn (rows : list (list Z)) : list (list Z) :=
  reverse (transpose rows).

(** A rotated copy is a plain image: it has no [_getexif]. *)
Definition turn (image : pil_image) (angle : Z) (expand : bool) : pil_image :=
  let turns := Z.to_nat (angle / 90 mod 4) in
  {| img_exif := Raise AttributeError;
     img_pixels := Nat.iter turns quarter_turn (img_pixels image) |}.

Definition runtime : Runtime := {|
  TAGS := tags;
  GPSTAGS := gpstags;
  float_of_str := λ s, inject_Z <$> number s;
  repr := λ _, "<object>";
  strptime := parse;
  strftime := render;
  fromtimestamp := utc;
  rotate := turn;
  clock := 1700000000;
|}.

(** The scenario of the specification: a JPEG taken at 40°26'46"N
    79°58'56"W, 300 m, heading 45°, on 2023-06-01 10:00:00. *)
Definition rational (n d : Z) : pyval := VTuple [VInt n; VInt d].

Definition dms (d m s : Z) : pyval :=
  VTuple [rational d 1; rational m 1; rational s 1].

Definition pittsburgh_gps : list (Z * pyval) :=
  [(1, VStr "N"); (2, dms 40 26 46); (3, VStr "W"); (4, dms 79 58 56);
   (6, rational 300 1); (17, VFloat 45)]%Z.

Definition pittsburgh_exif : exif_table :=
  [(274, VInt 6); (306, VStr "2023:06:02 08:30:00");
   (36867, VStr "2023:06:01 10:00:00"); (34853, VDict pittsburgh_gps)]%Z.

Definition photo (exif : exif_table) : pil_image :=
  {| img_exif := Ok (Some exif); img_pixels := [[1; 2; 3]; [4; 5; 6]]%Z |}.

(** The directory [/tmp/in] with the entries [names], of which [imgs]
    are images, all created on 2023-06-01 10:00:00 UTC; an empty page. *)
Definition world_of (names : list string) (imgs : list (string * pil_image))
    : world :=
  {| files :=
       list_to_map
         ((λ '(name, img),
             ("/tmp/in/" +:+ name, File (Picture img) 1685613600)) <$> imgs);
     dirs := {["/tmp/in" := names]};
     page := [] |}.

(** The same photograph in a directory of its own. *)
Definition pittsburgh_world : world :=
  world_of ["a.JPG"] [("a.JPG", photo pittsburgh_exif)].

(** [gps_info] after the tag loop on that photograph. *)
Definition pittsburgh_tags : gmap pykey pyval :=
  list_to_map
    [(inl "GPSLatitudeRef", VStr "N"); (inl "GPSLatitude", dms 40 26 46);
     (inl "GPSLongitudeRef", VStr "W"); (inl "GPSLongitude", dms 79 58 56);
     (inl "GPSAltitude", rational 300 1); (inl "GPSImgDirection", VFloat 45)].

(** A photograph from the southern hemisphere with a negative heading
    and no orientation or date tag. *)
Definition southern_exif : exif_table :=
  [(34853, VDict [(1, VStr "S"); (2, dms 33 51 25); (3, VStr "E");
                  (4, dms 151 12 54); (17, VFloat (-30))])]%Z.

Definition southern_world : world :=
  world_of ["s.png"] [("s.png", photo southern_exif)].

Definition southern_metadata : metadata :=
  {| latitude := Some (- (33 / 1 + 51 / 1 / 60.0 + 25 / 1 / 3600.0))%Q;
     longitude := Some (151 / 1 + 12 / 1 / 60.0 + 54 / 1 / 3600.0)%Q;
     altitude := (0 / 1)%Q;
     orientation := VFloat (-30);
     date_created := "2023-06-01 10:00:00" |}.

(** A directory that holds one PNG without EXIF block and a text file. *)
Definition plain_world : world :=
  world_of ["notes.txt"; "scan.PNG"]
    [("scan.PNG", {| img_exif := Ok None; img_pixels := [[7]]%Z |})].

(** A photograph whose latitude has seconds 0/0, in the northern
    hemisphere. *)
Definition malformed_exif : exif_table :=
  [(34853, VDict [(1, VStr "N");
                  (2, VTuple [rational 40 1; rational 26 1; rational 0 0]);
                  (3, VStr "W"); (4, dms 79 58 56)])]%Z.

Definition malformed_world : world :=
  world_of ["m.jpg"] [("m.jpg", photo malformed_exif)].

(** A photograph whose tag table lists DateTimeDigitized before
    DateTime, both well-formed, and has no DateTimeOriginal; and the
    same tags in the other order. *)
Definition digitized_first_exif : exif_table :=
  [(36868, VStr "2020:01:01 00:00:00"); (306, VStr "2021:02:02 12:00:00");
   (34853, VDict pittsburgh_gps)]%Z.

Definition datetime_first_exif : exif_table :=
  [(306, VStr "2021:02:02 12:00:00"); (36868, VStr "2020:01:01 00:00:00");
   (34853, VDict pittsburgh_gps)]%Z.

Definition digitized_first_world : world :=
  world_of ["d.jpg"] [("d.jpg", photo digitized_first_exif)].

Definition datetime_first_world : world :=
  world_of ["d.jpg"] [("d.jpg", photo datetime_first_exif)].

(** A photograph whose GPS sub-block has no latitude reference. *)
Definition no_ref_exif : exif_table :=
  [(34853, VDict [(2, dms 40 26 46); (3, VStr "W"); (4, dms 79 58 56)])]%Z.

Definition no_ref_world : world :=
  world_of ["b.jpg"] [("b.jpg", photo no_ref_exif)].

Definition no_ref_tags : gmap pykey pyval :=
  list_to_map
    [(inl "GPSLatitude", dms 40 26 46); (inl "GPSLongitudeRef", VStr "W");
     (inl "GPSLongitude", dms 79 58 56)].

(** A photograph with tags but no GPS sub-block. *)
Definition no_gps_exif : exif_table :=
  [(274, VInt 3); (306, VStr "2022:12:24 18:00:00")]%Z.

Definition no_gps_world : world :=
  world_of ["n.jpg"] [("n.jpg", photo no_gps_exif)].

(** A photograph whose GPS sub-block holds a latitude and no longitude. *)
Definition latitude_only_exif : exif_table :=
  [(34853, VDict [(1, VStr "N"); (2, dms 40 26 46)])]%Z.

Definition latitude_only_world : world :=
  world_of ["l.jpg"] [("l.jpg", photo latitude_only_exif)].

Definition latitude_only_tags : gmap pykey pyval :=
  list_to_map
    [(inl "GPSLatitudeRef", VStr "N"); (inl "GPSLatitude", dms 40 26 46)].

(** A photograph with coordinates and references and nothing else. *)
Definition bare_exif : exif_table :=
  [(34853, VDict [(1, VStr "N"); (2, dms 40 26 46); (3, VStr "E");
                  (4, dms 79 58 56)])]%Z.

Definition bare_world : world :=
  world_of ["c.jpg"] [("c.jpg", photo bare_exif)].

Definition bare_tags : gmap pykey pyval :=
  list_to_map
    [(inl "GPSLatitudeRef", VStr "N"); (inl "GPSLatitude", dms 40 26 46);
     (inl "GPSLongitudeRef", VStr "E"); (inl "GPSLongitude", dms 79 58 56)].

(** The same photograph with an altitude of 5/0. *)
Definition bad_altitude_exif : exif_table :=
  [(34853, VDict [(1, VStr "N"); (2, dms 40 26 46); (3, VStr "E");
                  (4, dms 79 58 56); (6, rational 5 0)])]%Z.

Definition bad_altitude_world : world :=
  world_of ["h.jpg"] [("h.jpg", photo bad_altitude_exif)].

Definition bad_altitude_tags : gmap pykey pyval :=
  <[inl "GPSAltitude" := rational 5 0]> bare_tags.

(** The photograph of the scenario with its heading stored as the
    rational pair 45/1. *)
Definition pair_heading_exif : exif_table :=
  [(34853, VDict [(1, VStr "N"); (2, dms 40 26 46); (3, VStr "W");
                  (4, dms 79 58 56); (17, rational 45 1)])]%Z.

Definition pair_heading_world : world :=
  world_of ["p.jpg"] [("p.jpg", photo pair_heading_exif)].

(** The directory of the scenario with a text file beside the
    photograph. *)
Definition annotated_world : world :=
  {| files := <["/tmp/in/notes.txt" := File (Blob "survey of 1 June") 1685600000]>
                (files pittsburgh_world);
     dirs := {["/tmp/in" := ["a.JPG"; "notes.txt"]]};
     page := [] |}.

(** A directory without any image name. *)
Definition text_only_world : world :=
  {| files := {["/tmp/in/notes.txt" := File (Blob "survey of 1 June") 1685600000]};
     dirs := {["/tmp/in" := ["notes.txt"; "track.gpx"]]};
     page := [] |}.

End Sample.

(** ** Well-formed coordinate components, in the words of the specification *)

(** A plain number. *)
Definition number_value (v : pyval) : option Q :=
  match v with
  | VInt z => Some (inject_Z z)
  | VFloat q => Some q
  | _ => None
  end.

(** A component of a DMS triplet: a rational pair (numerator,
    denominator) with a non-zero denominator, read as their quotient, or
    a plain number. *)
Definition dms_component (v : pyval) : option Q :=
  match v with
  | VTuple [n; d] =>
      match number_value n, number_value d with
      | Some a, Some b => if Qeq_bool b 0 then None else Some (a / b)%Q
      | _, _ => None
      end
  | _ => number_value v
  end.

(** A file name without a path separator, as [os.listdir] returns them. *)
Fixpoint contains_sep (s : string) : bool :=
  match s with
  | EmptyString => false
  | String c rest => is_sep c || contains_sep rest
  end.

(** A statement that leaves files and directories as they are (it may
    still write on the page). *)
Definition read_only {A} (m : M A) : Prop :=
  ∀ w, files (m w).2 = files w ∧ dirs (m w).2 = dirs w.

(** A statement that always returns. *)
Definition total {A} (m : M A) : Prop :=
  ∀ w, ∃ a, (m w).1 = Ok a.

(** The warning that [convert_to_degrees] puts on the page. *)
Definition conversion_warning (n : notice) : Prop :=
  ∃ e, n = st_warning "Error converting GPS value to degrees: " e.

(** A statement that changes nothing but the page, on which it puts at
    most [bound] conversion warnings. *)
Definition warns {A} (bound : nat) (m : M A) : Prop :=
  ∀ w, ∃ ws, (m w).2 = World (files w) (dirs w) (page w ++ ws)
             ∧ Forall conversion_warning ws ∧ (List.length ws ≤ bound)%nat.

(** The values of the tags named in [names] that parse as a timestamp,
    reformatted, in table order. *)
Definition date_candidates {rt : Runtime} (names : list string)
    (table : exif_table) : list string :=
  omap (λ item : Z * pyval,
          if existsb (key_is (tag_lookup TAGS item.1)) names then
            match reformat item.2 with
            | Ok s => Some s
            | Raise _ => None
            end
          else None) table.

(** The date the tag loop ends with: the last DateTimeOriginal that
    parses, or else the first listed of the DateTime and
    DateTimeDigitized tags that parse. *)
Definition expected_date {rt : Runtime} (table : exif_table) : option string :=
  match last (date_candidates ["DateTimeOriginal"] table) with
  | Some s => Some s
  | None => head (date_candidates ["DateTime"; "DateTimeDigitized"] table)
  end.

(** The name of a node of the document. *)
Definition feature_name (f : feature) : string :=
  match f with
  | Overlay o => go_name o
  | Placemark p => pt_name p
  end.

(** What the image loop writes into every node: an overlay shows
    Fan.png in a box of 0.0001 degrees on each axis, turned by a
    rotation that is not positive; a placemark has one coordinate
    triple without [None], the fixed icon and the absolute altitude
    mode. *)
Definition well_formed_feature (f : feature) : Prop :=
  match f with
  | Overlay o =>
      go_href o = "Fan.png"
      ∧ (go_rotation o <= 0)%Q
      ∧ (go_north o - go_south o == 0.0001)%Q
      ∧ (go_east o - go_west o == 0.0001)%Q
  | Placemark p =>
      pt_altitudemode p = absolute
      ∧ pt_icon_href p
        = "http://maps.google.com/mapfiles/kml/paddle/blu-circle.png"
      ∧ ∃ lon lat alt, pt_coords p = [(Some lon, Some lat, alt)]
  end.

(** A statement that leaves the directories alone and every file whose
    path is not in [footprint]. *)
Definition alters {A} (footprint : string → Prop) (m : M A) : Prop :=
  ∀ w, dirs (m w).2 = dirs w
       ∧ ∀ path, ¬ footprint path → files (m w).2 !! path = files w !! path.

(** * Properties *)

(** Unfolds the monad operations and computes. *)
Ltac run :=
  repeat progress
    (try unfold mbind; try unfold M_bind; try unfold result_bind;
     try unfold mret; try unfold M_ret; try unfold result_ret;
     try unfold lift; try unfold raise; try unfold try_except; simpl).

Section Expressions.
Context {rt : Runtime}.

Lemma py_float_number v q : number_value v = Some q → py_float v = Ok q.
Proof. destruct v; simpl; congruence. Qed.

Lemma rational_or_number_component v q :
  dms_component v = Some q → rational_or_number v = Ok q.
Proof.
  destruct v as [| | | |items|]; simpl; try discriminate.
  - intros [= <-]. reflexivity.
  - intros [= <-]. reflexivity.
  - destruct items as [|n [|d [|? ?]]]; try discriminate.
    destruct (number_value n) as [a|] eqn:Hn; try discriminate.
    destruct (number_value d) as [b|] eqn:Hd; try discriminate.
    destruct (Qeq_bool b 0) eqn:Hb; try discriminate.
    intros [= <-]. unfold rational_or_number, py_div; simpl.
    rewrite (py_float_number _ _ Hn), (py_float_number _ _ Hd); simpl.
    rewrite Hb. reflexivity.
Qed.

End Expressions.

(** C3. On a triplet (degrees, minutes, seconds) whose components are
    each a rational pair with a non-zero denominator or a plain number,
    [convert_to_degrees] returns degrees + minutes/60 + seconds/3600
    (each rational read as numerator over denominator), writes nothing
    on the page and changes nothing else. *)
Theorem convert_to_degrees_dms {rt : Runtime} (d m s : pyval) (dq mq sq : Q) (w : world) :
  dms_component d = Some dq →
  dms_component m = Some mq →
  dms_component s = Some sq →
  ∃ q, convert_to_degrees (VTuple [d; m; s]) w = (Ok (Some q), w)
       ∧ (q == dq + mq / 60 + sq / 3600)%Q.
Proof.
  intros Hd Hm Hs.
  exists (dq + mq / 60.0 + sq / 3600.0)%Q. split.
  - unfold convert_to_degrees, try_except, degrees_of; simpl.
    rewrite (rational_or_number_component _ _ Hd),
      (rational_or_number_component _ _ Hm),
      (rational_or_number_component _ _ Hs).
    reflexivity.
  - field.
Qed.

Lemma convert_to_degrees_dms_witness :
  dms_component (Sample.rational 40 1) = Some (40 / 1)%Q
  ∧ dms_component (VInt 26) = Some 26%Q
  ∧ dms_component (VFloat 46.5) = Some 46.5%Q
  ∧ ∃ q, convert_to_degrees (rt := Sample.runtime)
           (VTuple [Sample.rational 40 1; VInt 26; VFloat 46.5])
           (Sample.world_of [] [])
         = (Ok (Some q), Sample.world_of [] [])
         ∧ (q == 40 / 1 + 26 / 60 + 46.5 / 3600)%Q.
Proof.
  repeat split; try reflexivity.
  apply convert_to_degrees_dms; reflexivity.
Defined.

(** ** Statements that only read *)

Section Frames.
Context {rt : Runtime}.

Lemma read_only_ret {A} (a : A) : read_only (mret a).
Proof. intros w. done. Qed.

Lemma read_only_lift {A} (r : result A) : read_only (lift r).
Proof. intros w. done. Qed.

Lemma read_only_notify n : read_only (notify n).
Proof. intros w. done. Qed.

Lemma read_only_bind {A B} (m : M A) (f : A → M B) :
  read_only m → (∀ a, read_only (f a)) → read_only (m ≫= f).
Proof.
  intros Hm Hf w. run. specialize (Hm w).
  destruct (m w) as [[a|e] w1]; simpl in *; [|done].
  destruct (Hf a w1) as [-> ->]. done.
Qed.

Lemma read_only_try {A} (body : M A) (handler : exn → M A) :
  read_only body → (∀ e, read_only (handler e)) →
  read_only (try_except body handler).
Proof.
  intros Hm Hh w. run. specialize (Hm w).
  destruct (body w) as [[a|e] w1]; simpl in *; [done|].
  destruct (Hh e w1) as [-> ->]. done.
Qed.

Lemma read_only_read_file path : read_only (read_file path).
Proof. intros w. unfold read_file. by destruct (files w !! path). Qed.

Lemma read_only_Image_open path : read_only (Image_open path).
Proof.
  apply read_only_bind; [apply read_only_read_file|].
  intros f. destruct (f_content f); first [apply read_only_ret | apply read_only_lift].
Qed.

Lemma read_only_getctime path : read_only (getctime path).
Proof.
  apply read_only_bind; [apply read_only_read_file|]. intros; apply read_only_ret.
Qed.

Lemma read_only_convert_to_degrees value : read_only (convert_to_degrees value).
Proof.
  apply read_only_try.
  - apply read_only_bind; [apply read_only_lift|]. intros; apply read_only_ret.
  - intros e. apply read_only_bind; [apply read_only_notify|].
    intros; apply read_only_ret.
Qed.

Lemma read_only_resolve_date path date : read_only (resolve_date path date).
Proof.
  assert (read_only (t ← getctime path;
                     mret (strftime (fromtimestamp t) "%Y-%m-%d %H:%M:%S"))).
  { apply read_only_bind; [apply read_only_getctime|]. intros; apply read_only_ret. }
  unfold resolve_date. destruct date as [s|]; [|done].
  destruct (String.eqb s ""); [done | apply read_only_ret].
Qed.

Lemma read_only_locate gps date : read_only (locate gps date).
Proof.
  unfold locate.
  repeat first
    [ apply read_only_ret | apply read_only_lift | apply read_only_convert_to_degrees
    | apply read_only_bind; [|intros ?]
    | match goal with |- read_only (if ?b then _ else _) => destruct b end ].
Qed.

Lemma read_only_get_gps_metadata path : read_only (get_gps_metadata path).
Proof.
  apply read_only_try.
  - apply read_only_bind; [apply read_only_Image_open|]. intros image.
    apply read_only_bind; [apply read_only_lift|]. intros [[|item table]|];
      try apply read_only_ret.
    apply read_only_bind; [apply read_only_lift|]. intros [gps date].
    apply read_only_bind; [apply read_only_resolve_date|]. intros d.
    apply read_only_locate.
  - intros e. apply read_only_bind; [apply read_only_notify|].
    intros; apply read_only_ret.
Qed.

Lemma read_only_correct_image_orientation image :
  read_only (correct_image_orientation image).
Proof.
  apply read_only_try.
  - simpl. apply read_only_bind; [apply read_only_lift|].
    intros [[|item table]|]; try apply read_only_ret.
    apply read_only_bind.
    { destruct (orientation_key _ _); [apply read_only_ret | apply read_only_lift]. }
    intros o. destruct (assoc o _); [|apply read_only_ret].
    repeat match goal with |- read_only (if ?b then _ else _) => destruct b end;
      apply read_only_ret.
  - intros e. apply read_only_bind; [apply read_only_notify|].
    intros; apply read_only_ret.
Qed.

(** A [try] whose handler returns never raises. *)
Lemma total_try {A} (body : M A) (handler : exn → M A) :
  (∀ e, total (handler e)) → total (try_except body handler).
Proof.
  intros Hh w. run. destruct (body w) as [[a|e] w1]; [by eexists|]. apply Hh.
Qed.

Lemma total_convert_to_degrees value : total (convert_to_degrees value).
Proof. apply total_try. intros e w. by eexists. Qed.

Lemma total_get_gps_metadata path : total (get_gps_metadata path).
Proof. apply total_try. intros e w. by eexists. Qed.

Lemma total_correct_image_orientation image :
  total (correct_image_orientation image).
Proof. apply total_try. intros e w. by eexists. Qed.

End Frames.

(** ** The metadata extractor, block by block *)

Section Extractor.
Context {rt : Runtime}.

Lemma eq_str_true v s : eq_str v s = true ↔ v = VStr s.
Proof.
  destruct v; simpl; try (split; [discriminate | congruence]).
  rewrite bool_decide_eq_true. split; congruence.
Qed.

Lemma convert_to_degrees_ok value q w :
  degrees_of value = Ok q → convert_to_degrees value w = (Ok (Some q), w).
Proof. intros Hq. unfold convert_to_degrees. run. by rewrite Hq. Qed.

Lemma convert_to_degrees_fails value e w :
  degrees_of value = Raise e →
  convert_to_degrees value w
  = (Ok None,
     World (files w) (dirs w)
       (page w ++ [st_warning "Error converting GPS value to degrees: " e])).
Proof. intros Hq. unfold convert_to_degrees. run. by rewrite Hq. Qed.

(** What [resolve_date] returns on a file created at [ct]. *)
Lemma resolve_date_found path date w f :
  files w !! path = Some f →
  resolve_date path date w
  = (Ok (match date with
         | Some s =>
             if String.eqb s "" then
               strftime (fromtimestamp (f_ctime f)) "%Y-%m-%d %H:%M:%S"
             else s
         | None => strftime (fromtimestamp (f_ctime f)) "%Y-%m-%d %H:%M:%S"
         end), w).
Proof.
  intros Hf. unfold resolve_date, getctime, read_file.
  destruct date as [s|]; [destruct (String.eqb s "")|]; run; by rewrite ?Hf.
Qed.

Lemma scan_exif_gps_nonempty table gps date key v :
  scan_exif (∅, None) table = Ok (gps, date) → gps !! key = Some v → table ≠ [].
Proof. intros Hscan Hv ->. simpl in Hscan. by simplify_eq. Qed.

(** The extractor on an image whose tag table was scanned without error:
    the rest of the [try] decides. *)
Lemma get_gps_metadata_scanned path w img ct table gps date :
  files w !! path = Some (File (Picture img) ct) →
  img_exif img = Ok (Some table) →
  table ≠ [] →
  scan_exif (∅, None) table = Ok (gps, date) →
  get_gps_metadata path w
  = try_except
      (d ← resolve_date path date; locate gps d)
      (λ e, notify (st_error ("Error extracting metadata from " +:+ path +:+ ": ") e);;
            mret None) w.
Proof.
  intros Hf Hexif Hne Hscan. unfold get_gps_metadata, Image_open, read_file.
  run. rewrite Hf; simpl. rewrite Hexif.
  destruct table as [|item table]; [done|]. by rewrite Hscan.
Qed.

Lemma size_nonzero (gps : gmap pykey pyval) key v :
  gps !! key = Some v → bool_decide (size gps = 0%nat) = false.
Proof.
  intros Hv. apply bool_decide_eq_false. rewrite map_size_empty_iff.
  intros ->. by rewrite lookup_empty in Hv.
Qed.

(** [locate] when every tag it reads is there and converts. *)
Lemma locate_found gps date w vlat vlon la lo rla rlo alt :
  gps !! inl "GPSLatitude" = Some vlat →
  gps !! inl "GPSLongitude" = Some vlon →
  degrees_of vlat = Ok la →
  degrees_of vlon = Ok lo →
  gps !! inl "GPSLatitudeRef" = Some rla →
  gps !! inl "GPSLongitudeRef" = Some rlo →
  rational_or_number
    (default (VTuple [VInt 0; VInt 1]) (gps !! inl "GPSAltitude")) = Ok alt →
  locate gps date w
  = (Ok (Some {| latitude := Some (if eq_str rla "S" then - la else la)%Q;
                 longitude := Some (if eq_str rlo "W" then - lo else lo)%Q;
                 altitude := alt;
                 orientation := default (VInt 0) (gps !! inl "GPSImgDirection");
                 date_created := date |}), w).
Proof.
  intros Hlat Hlon Hla Hlo Hrla Hrlo Halt. unfold locate, getitem.
  rewrite (size_nonzero _ _ _ Hlat), Hlat, Hlon, Hrla, Hrlo.
  rewrite !bool_decide_eq_true_2 by eauto. run.
  rewrite (convert_to_degrees_ok _ _ _ Hla), (convert_to_degrees_ok _ _ _ Hlo).
  destruct (eq_str rla "S"), (eq_str rlo "W"); simpl; by rewrite Halt.
Qed.

(** [locate] when a hemisphere reference is missing: it raises, after at
    most two conversion warnings. *)
Lemma locate_missing_ref gps date w :
  is_Some (gps !! inl "GPSLatitude") →
  is_Some (gps !! inl "GPSLongitude") →
  gps !! inl "GPSLatitudeRef" = None ∨ gps !! inl "GPSLongitudeRef" = None →
  ∃ e w', locate gps date w = (Raise e, w')
          ∧ files w' = files w ∧ dirs w' = dirs w.
Proof.
  intros [vlat Hlat] [vlon Hlon] Href. unfold locate, getitem.
  rewrite (size_nonzero _ _ _ Hlat), Hlat, Hlon.
  rewrite !bool_decide_eq_true_2 by eauto. run.
  destruct (total_convert_to_degrees vlat w) as [lat Hlat'].
  destruct (read_only_convert_to_degrees vlat w) as [Hf1 Hd1].
  destruct (convert_to_degrees vlat w) as [r1 w1]; simpl in *; subst r1.
  destruct (total_convert_to_degrees vlon w1) as [lon Hlon'].
  destruct (read_only_convert_to_degrees vlon w1) as [Hf2 Hd2].
  destruct (convert_to_degrees vlon w1) as [r2 w2]; simpl in *; subst r2.
  assert (files w2 = files w ∧ dirs w2 = dirs w) as Hw by (split; congruence).
  destruct (gps !! inl "GPSLatitudeRef") as [rla|]; [|by eauto].
  destruct Href as [|Href]; [done|]. rewrite Href.
  destruct (eq_str rla "S"); simpl; [|by eauto].
  destruct lat as [q|]; simpl; by eauto.
Qed.

(** [locate] when the latitude does not convert and its reference is not
    "S": the failed conversion is not noticed, the record is returned
    with [None] as latitude. *)
Lemma locate_keeps_failed_latitude gps date w vlat vlon e lo rla rlo alt :
  gps !! inl "GPSLatitude" = Some vlat →
  gps !! inl "GPSLongitude" = Some vlon →
  degrees_of vlat = Raise e →
  degrees_of vlon = Ok lo →
  gps !! inl "GPSLatitudeRef" = Some rla →
  eq_str rla "S" = false →
  gps !! inl "GPSLongitudeRef" = Some rlo →
  rational_or_number
    (default (VTuple [VInt 0; VInt 1]) (gps !! inl "GPSAltitude")) = Ok alt →
  ∃ md, locate gps date w
        = (Ok (Some md),
           World (files w) (dirs w)
             (page w ++ [st_warning "Error converting GPS value to degrees: " e]))
        ∧ latitude md = None.
Proof.
  intros Hlat Hlon Hla Hlo Hrla HS Hrlo Halt. unfold locate, getitem.
  rewrite (size_nonzero _ _ _ Hlat), Hlat, Hlon, Hrla, Hrlo.
  rewrite !bool_decide_eq_true_2 by eauto. run.
  rewrite (convert_to_degrees_fails _ _ _ Hla), (convert_to_degrees_ok _ _ _ Hlo).
  rewrite HS.
  destruct (eq_str rlo "W"); simpl; rewrite Halt; eexists; split; reflexivity.
Qed.

End Extractor.

(** C6. When latitude and longitude convert, both hemisphere references
    are present and the altitude tag is readable, the extractor returns
    a record whose latitude is the converted value negated exactly when
    the latitude reference is "S", and whose longitude is the converted
    value negated exactly when the longitude reference is "W"; any other
    reference (such as "N" or "E") leaves the converted value as it is. *)
Theorem hemisphere_sign {rt : Runtime} path w img ct table gps date
    vlat vlon la lo rla rlo alt :
  files w !! path = Some (File (Picture img) ct) →
  img_exif img = Ok (Some table) →
  scan_exif (∅, None) table = Ok (gps, date) →
  gps !! inl "GPSLatitude" = Some vlat →
  gps !! inl "GPSLongitude" = Some vlon →
  degrees_of vlat = Ok la →
  degrees_of vlon = Ok lo →
  gps !! inl "GPSLatitudeRef" = Some rla →
  gps !! inl "GPSLongitudeRef" = Some rlo →
  rational_or_number
    (default (VTuple [VInt 0; VInt 1]) (gps !! inl "GPSAltitude")) = Ok alt →
  ∃ md, get_gps_metadata path w = (Ok (Some md), w)
        ∧ (rla = VStr "S" → latitude md = Some (- la)%Q)
        ∧ (rla ≠ VStr "S" → latitude md = Some la)
        ∧ (rlo = VStr "W" → longitude md = Some (- lo)%Q)
        ∧ (rlo ≠ VStr "W" → longitude md = Some lo).
Proof.
  intros Hf Hexif Hscan Hlat Hlon Hla Hlo Hrla Hrlo Halt.
  eexists. split.
  - rewrite (get_gps_metadata_scanned _ _ _ _ _ _ _ Hf Hexif
               (scan_exif_gps_nonempty _ _ _ _ _ Hscan Hlat) Hscan).
    unfold try_except, mbind, M_bind.
    rewrite (resolve_date_found _ _ _ _ Hf).
    by rewrite (locate_found _ _ _ _ _ _ _ _ _ _ Hlat Hlon Hla Hlo Hrla Hrlo Halt).
  - simpl. pose proof (eq_str_true rla "S") as HS.
    pose proof (eq_str_true rlo "W") as HW.
    destruct (eq_str rla "S"), (eq_str rlo "W"); repeat split; intros Hr;
      try done; (apply HS in Hr || apply HW in Hr || idtac); try done;
      try (exfalso; apply Hr; by (apply HS || apply HW)).
Qed.

Lemma hemisphere_sign_witness :
  scan_exif (rt := Sample.runtime) (∅, None) Sample.pittsburgh_exif
  = Ok (Sample.pittsburgh_tags, Some "2023-06-01 10:00:00")
  ∧ Sample.pittsburgh_tags !! inl "GPSLatitudeRef" = Some (VStr "N")
  ∧ Sample.pittsburgh_tags !! inl "GPSLongitudeRef" = Some (VStr "W")
  ∧ ∃ md, get_gps_metadata (rt := Sample.runtime) "/tmp/in/a.JPG"
            Sample.pittsburgh_world
          = (Ok (Some md), Sample.pittsburgh_world)
          ∧ (VStr "N" = VStr "S" → latitude md = Some (- (40 + 26 / 60.0 + 46 / 3600.0))%Q)
          ∧ (VStr "N" ≠ VStr "S" → latitude md = Some (40 + 26 / 60.0 + 46 / 3600.0)%Q)
          ∧ (VStr "W" = VStr "W" → longitude md = Some (- (79 + 58 / 60.0 + 56 / 3600.0))%Q)
          ∧ (VStr "W" ≠ VStr "W" → longitude md = Some (79 + 58 / 60.0 + 56 / 3600.0)%Q).
Proof.
  split; [vm_compute; reflexivity|].
  split; [vm_compute; reflexivity|].
  split; [vm_compute; reflexivity|].
  eapply (hemisphere_sign (rt := Sample.runtime) "/tmp/in/a.JPG"
            Sample.pittsburgh_world _ _ Sample.pittsburgh_exif
            Sample.pittsburgh_tags (Some "2023-06-01 10:00:00")
            (Sample.dms 40 26 46) (Sample.dms 79 58 56) _ _
            (VStr "N") (VStr "W") 300%Q);
    vm_compute; reflexivity.
Defined.

(** C10. When the GPS sub-block holds GPSLatitude and GPSLongitude but
    lacks GPSLatitudeRef or GPSLongitudeRef, the extractor returns
    [None]: reading the missing reference raises, the handler puts the
    extraction error for this image on the page, and no coordinate is
    returned. Files are left as they were. *)
Theorem missing_reference_is_no_data {rt : Runtime} path w img ct table gps date :
  files w !! path = Some (File (Picture img) ct) →
  img_exif img = Ok (Some table) →
  scan_exif (∅, None) table = Ok (gps, date) →
  is_Some (gps !! inl "GPSLatitude") →
  is_Some (gps !! inl "GPSLongitude") →
  gps !! inl "GPSLatitudeRef" = None ∨ gps !! inl "GPSLongitudeRef" = None →
  ∃ e w', get_gps_metadata path w = (Ok None, w')
          ∧ last (page w')
            = Some (st_error ("Error extracting metadata from " +:+ path +:+ ": ") e)
          ∧ files w' = files w.
Proof.
  intros Hf Hexif Hscan Hlat Hlon Href.
  assert (table ≠ []) as Hne.
  { destruct Hlat as [v Hv]. eapply scan_exif_gps_nonempty; eauto. }
  rewrite (get_gps_metadata_scanned _ _ _ _ _ _ _ Hf Hexif Hne Hscan).
  unfold try_except, mbind, M_bind.
  rewrite (resolve_date_found _ _ _ _ Hf).
  destruct (locate_missing_ref gps
              (match date with
               | Some s =>
                   if String.eqb s "" then
                     strftime (fromtimestamp (f_ctime (File (Picture img) ct)))
                       "%Y-%m-%d %H:%M:%S"
                   else s
               | None =>
                   strftime (fromtimestamp (f_ctime (File (Picture img) ct)))
                     "%Y-%m-%d %H:%M:%S"
               end) w Hlat Hlon Href) as (e & w' & -> & Hfiles & _).
  exists e. eexists. split; [reflexivity|]. simpl. split; [apply last_snoc | done].
Qed.

Lemma missing_reference_is_no_data_witness :
  scan_exif (rt := Sample.runtime) (∅, None) Sample.no_ref_exif
  = Ok (Sample.no_ref_tags, None)
  ∧ is_Some (Sample.no_ref_tags !! inl "GPSLatitude")
  ∧ is_Some (Sample.no_ref_tags !! inl "GPSLongitude")
  ∧ Sample.no_ref_tags !! inl "GPSLatitudeRef" = None
  ∧ ∃ e w', get_gps_metadata (rt := Sample.runtime) "/tmp/in/b.jpg"
              Sample.no_ref_world = (Ok None, w')
            ∧ last (page w')
              = Some (st_error "Error extracting metadata from /tmp/in/b.jpg: " e)
            ∧ files w' = files Sample.no_ref_world.
Proof.
  split; [vm_compute; reflexivity|].
  split; [vm_compute; eauto|].
  split; [vm_compute; eauto|].
  split; [vm_compute; reflexivity|].
  eapply (missing_reference_is_no_data (rt := Sample.runtime) "/tmp/in/b.jpg"
            Sample.no_ref_world _ _ Sample.no_ref_exif Sample.no_ref_tags None).
  - vm_compute; reflexivity.
  - vm_compute; reflexivity.
  - vm_compute; reflexivity.
  - vm_compute; eauto.
  - vm_compute; eauto.
  - left. vm_compute; reflexivity.
Defined.

(** ** Paths *)

Section Paths.

Lemma app_cons c a s : String c a +:+ s = String c (a +:+ s).
Proof. reflexivity. Qed.

Lemma app_empty s : "" +:+ s = s.
Proof. reflexivity. Qed.

Lemma rfind_sep_none f : contains_sep f = false → rfind_sep f = (-1)%Z.
Proof.
  induction f as [|c f IH]; simpl; [done|].
  intros [Hc Hf]%orb_false_elim. rewrite (IH Hf), Hc. done.
Qed.

Lemma rfind_sep_last a f :
  contains_sep f = false →
  rfind_sep (a +:+ String "/" f) = Z.of_nat (String.length a).
Proof.
  intros Hf. induction a as [|c a IH].
  - rewrite app_empty. simpl. by rewrite (rfind_sep_none _ Hf).
  - rewrite app_cons. simpl rfind_sep. rewrite IH.
    destruct (0 <=? Z.of_nat (String.length a))%Z eqn:Hle; simpl String.length; lia.
Qed.

Lemma drop_chars_app a s : drop_chars (String.length a) (a +:+ s) = s.
Proof.
  induction a as [|c a IH]; [by destruct s|]. by rewrite app_cons.
Qed.

Lemma app_sep a f : (a +:+ "/") +:+ f = a +:+ String "/" f.
Proof.
  induction a as [|c a IH]; [done|]. rewrite !app_cons. by f_equal.
Qed.

Lemma length_app_sep a : String.length (a +:+ "/") = S (String.length a).
Proof.
  induction a as [|c a IH]; [done|]. rewrite app_cons. simpl. by rewrite IH.
Qed.

Lemma basename_after_sep a f :
  contains_sep f = false → basename (a +:+ String "/" f) = f.
Proof.
  intros Hf. unfold basename. rewrite (rfind_sep_last _ _ Hf).
  replace (Z.to_nat (Z.of_nat (String.length a) + 1))
    with (String.length (a +:+ "/")) by (rewrite length_app_sep; lia).
  rewrite <- (app_sep a f). apply drop_chars_app.
Qed.

Lemma basename_plain f : contains_sep f = false → basename f = f.
Proof. intros Hf. unfold basename. by rewrite (rfind_sep_none _ Hf). Qed.

Lemma endswith_sep a : endswith a "/" = true → ∃ a', a = a' +:+ "/".
Proof.
  unfold endswith. intros [_ Heq%String.eqb_eq]%andb_true_iff. simpl in Heq.
  induction a as [|c a IH]; simpl in *; [done|].
  rewrite Nat.sub_0_r in Heq. destruct a as [|c' a].
  - simpl in Heq. exists "". by simplify_eq.
  - simpl in *. rewrite Nat.sub_0_r in IH. destruct (IH Heq) as [a' ->].
    by exists (String c a').
Qed.

Lemma startswith_sep f : contains_sep f = false → startswith f "/" = false.
Proof.
  destruct f as [|c f]; [done|]. simpl contains_sep.
  intros [Hc _]%orb_false_elim.
  change (startswith (String c f) "/")
    with (if Ascii.ascii_dec "/"%char c then String.prefix "" f else false).
  destruct (Ascii.ascii_dec "/" c) as [<-|Hne]; [discriminate Hc | done].
Qed.

(** The base name of a directory entry joined to its directory is the
    entry, so joining it again gives the same path. *)
Lemma basename_join folder f :
  contains_sep f = false → basename (join folder f) = f.
Proof.
  intros Hf. unfold join. rewrite (startswith_sep _ Hf).
  destruct (String.eqb folder "") eqn:Hempty; simpl.
  - apply String.eqb_eq in Hempty as ->. by apply basename_plain.
  - destruct (endswith folder "/") eqn:Hend.
    + destruct (endswith_sep _ Hend) as [a' ->].
      rewrite app_sep. by apply basename_after_sep.
    + by apply (basename_after_sep folder f).
Qed.

End Paths.

(** ** One iteration of the image loop *)

Section Assembler.
Context {rt : Runtime}.

(** An image the extractor returned a record for can be opened. *)
Lemma get_gps_metadata_opened path w md w1 :
  get_gps_metadata path w = (Ok (Some md), w1) →
  ∃ img ct, files w !! path = Some (File (Picture img) ct).
Proof.
  unfold get_gps_metadata, Image_open, read_file, try_except, mbind, M_bind.
  destruct (files w !! path) as [[c ct]|] eqn:Hf; simpl; [|by intros [=]].
  destruct c; simpl; try by intros [=]. eauto.
Qed.

Lemma process_image_skip folder st path w w1 :
  get_gps_metadata path w = (Ok None, w1) →
  process_image folder st path w = (Ok st, w1).
Proof. intros Hmd. unfold process_image, mbind, M_bind. by rewrite Hmd. Qed.

(** The iteration on an image with a record whose heading is a number
    and whose coordinates are not [None]: the corrected image is saved,
    one overlay and one placemark are appended, the pair is recorded. *)
Lemma process_image_geolocated folder st path w md w1 h lat lon :
  get_gps_metadata path w = (Ok (Some md), w1) →
  py_float (orientation md) = Ok h →
  latitude md = Some lat →
  longitude md = Some lon →
  ∃ img ct corrected w2,
    files w !! path = Some (File (Picture img) ct)
    ∧ correct_image_orientation img w1 = (Ok corrected, w2)
    ∧ process_image folder st path w
      = (Ok {| kml := kml st ++
                 [Overlay
                    {| go_name := "Overlay - " +:+ basename path;
                       go_href := "Fan.png";
                       go_north := (lat + 0.0001 / 2)%Q;
                       go_south := (lat - 0.0001 / 2)%Q;
                       go_east := (lon + 0.0001 / 2)%Q;
                       go_west := (lon - 0.0001 / 2)%Q;
                       go_rotation := (- Qabs h)%Q |};
                  Placemark
                    {| pt_name := basename path;
                       pt_coords := [(Some lon, Some lat, altitude md)];
                       pt_description :=
                         [Interp (date_created md); Fixed1 (altitude md);
                          Fixed1 h; Fixed6 lat; Fixed6 lon;
                          Interp (basename path)];
                       pt_icon_href :=
                         "http://maps.google.com/mapfiles/kml/paddle/blu-circle.png";
                       pt_altitudemode := absolute |}];
               kmz_images := kmz_images st ++
                 [(basename path, join folder (basename path))];
               has_data := true |},
         set_files
           (<[join folder (basename path) := File (Picture corrected) clock]>
              (files w)) w2).
Proof.
  intros Hmd Hh Hlat Hlon.
  destruct (get_gps_metadata_opened _ _ _ _ Hmd) as (img & ct & Hf).
  pose proof (read_only_get_gps_metadata path w) as [Hf1 _].
  rewrite Hmd in Hf1; simpl in Hf1.
  destruct (total_correct_image_orientation img w1) as [corrected Hc].
  pose proof (read_only_correct_image_orientation img w1) as [Hf2 _].
  destruct (correct_image_orientation img w1) as [r w2] eqn:Hcorr;
    simpl in *; subst r.
  exists img, ct, corrected, w2. split; [done|]. split; [done|].
  unfold process_image, Image_open, read_file, Image_save, write_file,
    update_files, placemark_description, format_6f, py_add, py_sub.
  run. rewrite Hmd, Hh. run. rewrite Hf1, Hf. run. rewrite Hcorr. run.
  rewrite Hlat, Hlon. run. by rewrite Hf2, Hf1.
Qed.

End Assembler.

(** C2. For an image with a record whose heading is a number (of either
    sign, or zero) and whose coordinates are present, the iteration
    appends a ground overlay whose rotation is minus the absolute value
    of the heading, hence at most zero. *)
Theorem overlay_rotation {rt : Runtime} folder st path w md w1 h lat lon :
  get_gps_metadata path w = (Ok (Some md), w1) →
  py_float (orientation md) = Ok h →
  latitude md = Some lat →
  longitude md = Some lon →
  ∃ st' w' o p,
    process_image folder st path w = (Ok st', w')
    ∧ kml st' = kml st ++ [Overlay o; Placemark p]
    ∧ go_rotation o = (- Qabs h)%Q
    ∧ (go_rotation o <= 0)%Q.
Proof.
  intros Hmd Hh Hlat Hlon.
  destruct (process_image_geolocated folder st _ _ _ _ _ _ _ Hmd Hh Hlat Hlon)
    as (img & ct & corrected & w2 & _ & _ & ->).
  do 4 eexists. split; [reflexivity|]. split; [reflexivity|]. simpl.
  split; [reflexivity|]. pose proof (Qabs_nonneg h). lra.
Qed.

Lemma overlay_rotation_witness :
  get_gps_metadata (rt := Sample.runtime) "/tmp/in/s.png" Sample.southern_world
  = (Ok (Some Sample.southern_metadata), Sample.southern_world)
  ∧ py_float (rt := Sample.runtime) (orientation Sample.southern_metadata)
    = Ok (-30)%Q
  ∧ ∃ st' w' o p,
      process_image (rt := Sample.runtime) "/tmp/in" no_images "/tmp/in/s.png"
        Sample.southern_world = (Ok st', w')
      ∧ kml st' = kml no_images ++ [Overlay o; Placemark p]
      ∧ go_rotation o = (- Qabs (-30))%Q
      ∧ (go_rotation o <= 0)%Q.
Proof.
  split; [vm_compute; reflexivity|]. split; [reflexivity|].
  eapply (overlay_rotation (rt := Sample.runtime) "/tmp/in" no_images
            "/tmp/in/s.png" Sample.southern_world Sample.southern_metadata);
    [vm_compute; reflexivity | reflexivity..].
Defined.

(** C7. For an image with a record at (lat, lon), the overlay box has
    north = lat + s/2, south = lat − s/2, east = lon + s/2 and
    west = lon − s/2 for s = 0.0001; so north − south = east − west = s
    and the centre of the box is (lat, lon). Arithmetic is exact here:
    the tolerance of the floating-point run is not modelled. *)
Theorem overlay_box {rt : Runtime} folder st path w md w1 h lat lon :
  get_gps_metadata path w = (Ok (Some md), w1) →
  py_float (orientation md) = Ok h →
  latitude md = Some lat →
  longitude md = Some lon →
  ∃ st' w' o p,
    process_image folder st path w = (Ok st', w')
    ∧ kml st' = kml st ++ [Overlay o; Placemark p]
    ∧ (go_north o == lat + 0.0001 / 2 ∧ go_south o == lat - 0.0001 / 2
       ∧ go_east o == lon + 0.0001 / 2 ∧ go_west o == lon - 0.0001 / 2)%Q
    ∧ (go_north o - go_south o == 0.0001
       ∧ go_east o - go_west o == 0.0001)%Q
    ∧ ((go_north o + go_south o) / 2 == lat
       ∧ (go_east o + go_west o) / 2 == lon)%Q.
Proof.
  intros Hmd Hh Hlat Hlon.
  destruct (process_image_geolocated folder st _ _ _ _ _ _ _ Hmd Hh Hlat Hlon)
    as (img & ct & corrected & w2 & _ & _ & ->).
  do 4 eexists. split; [reflexivity|]. split; [reflexivity|]. simpl.
  repeat split; try reflexivity; field.
Qed.

Lemma overlay_box_witness :
  get_gps_metadata (rt := Sample.runtime) "/tmp/in/s.png" Sample.southern_world
  = (Ok (Some Sample.southern_metadata), Sample.southern_world)
  ∧ ∃ st' w' o p,
      process_image (rt := Sample.runtime) "/tmp/in" no_images "/tmp/in/s.png"
        Sample.southern_world = (Ok st', w')
      ∧ kml st' = kml no_images ++ [Overlay o; Placemark p]
      ∧ (go_north o == - (33 / 1 + 51 / 1 / 60.0 + 25 / 1 / 3600.0) + 0.0001 / 2
         ∧ go_south o == - (33 / 1 + 51 / 1 / 60.0 + 25 / 1 / 3600.0) - 0.0001 / 2
         ∧ go_east o == 151 / 1 + 12 / 1 / 60.0 + 54 / 1 / 3600.0 + 0.0001 / 2
         ∧ go_west o == 151 / 1 + 12 / 1 / 60.0 + 54 / 1 / 3600.0 - 0.0001 / 2)%Q
      ∧ (go_north o - go_south o == 0.0001
         ∧ go_east o - go_west o == 0.0001)%Q
      ∧ ((go_north o + go_south o) / 2
           == - (33 / 1 + 51 / 1 / 60.0 + 25 / 1 / 3600.0)
         ∧ (go_east o + go_west o) / 2
           == 151 / 1 + 12 / 1 / 60.0 + 54 / 1 / 3600.0)%Q.
Proof.
  split; [vm_compute; reflexivity|].
  eapply (overlay_box (rt := Sample.runtime) "/tmp/in" no_images
            "/tmp/in/s.png" Sample.southern_world Sample.southern_metadata);
    [vm_compute; reflexivity | reflexivity..].
Defined.

(** C9. For a directory entry (a name without separator) with a record,
    the corrected image is saved at the directory joined with the
    image's base name, which is the path of the source file itself: the
    file read is the file written, and the recorded pair is (entry
    name, that path). No other file changes. *)
Theorem corrected_copy_overwrites_source {rt : Runtime}
    folder f st w md w1 h lat lon :
  contains_sep f = false →
  get_gps_metadata (join folder f) w = (Ok (Some md), w1) →
  py_float (orientation md) = Ok h →
  latitude md = Some lat →
  longitude md = Some lon →
  join folder (basename (join folder f)) = join folder f
  ∧ ∃ img ct corrected w2 st' w',
      files w !! join folder f = Some (File (Picture img) ct)
      ∧ correct_image_orientation img w1 = (Ok corrected, w2)
      ∧ process_image folder st (join folder f) w = (Ok st', w')
      ∧ kmz_images st' = kmz_images st ++ [(f, join folder f)]
      ∧ files w'
        = <[join folder f := File (Picture corrected) clock]> (files w).
Proof.
  intros Hsep Hmd Hh Hlat Hlon.
  destruct (process_image_geolocated folder st _ _ _ _ _ _ _ Hmd Hh Hlat Hlon)
    as (img & ct & corrected & w2 & Hf & Hc & ->).
  rewrite (basename_join _ _ Hsep). split; [reflexivity|].
  exists img, ct, corrected, w2. do 2 eexists.
  split; [done|]. split; [done|]. split; [reflexivity|]. done.
Qed.

Lemma corrected_copy_overwrites_source_witness :
  contains_sep "s.png" = false
  ∧ join "/tmp/in" (basename (join "/tmp/in" "s.png")) = join "/tmp/in" "s.png"
  ∧ ∃ img ct corrected w2 st' w',
      files Sample.southern_world !! join "/tmp/in" "s.png"
      = Some (File (Picture img) ct)
      ∧ correct_image_orientation (rt := Sample.runtime) img Sample.southern_world
        = (Ok corrected, w2)
      ∧ process_image (rt := Sample.runtime) "/tmp/in" no_images
          (join "/tmp/in" "s.png") Sample.southern_world = (Ok st', w')
      ∧ kmz_images st' = kmz_images no_images ++ [("s.png", join "/tmp/in" "s.png")]
      ∧ files w'
        = <[join "/tmp/in" "s.png" := File (Picture corrected) (clock (Runtime := Sample.runtime))]>
            (files Sample.southern_world).
Proof.
  split; [reflexivity|].
  eapply (corrected_copy_overwrites_source (rt := Sample.runtime) "/tmp/in"
            "s.png" no_images Sample.southern_world Sample.southern_metadata);
    [reflexivity | vm_compute; reflexivity | reflexivity..].
Defined.

(** ** The image loop and the aggregate failure *)

Section Packager.
Context {rt : Runtime}.

(** An iteration that returns either skipped the image and left the
    files alone, or set the flag and recorded one more pair. *)
Lemma process_image_flag folder st path w st' w' :
  process_image folder st path w = (Ok st', w') →
  (st' = st ∧ files w' = files w ∧ dirs w' = dirs w)
  ∨ (has_data st' = true ∧ ∃ pair, kmz_images st' = kmz_images st ++ [pair]).
Proof.
  destruct (total_get_gps_metadata path w) as [r Hr].
  pose proof (read_only_get_gps_metadata path w) as Hro.
  destruct (get_gps_metadata path w) as [r' w1] eqn:Hmd; simpl in *; subst r'.
  destruct r as [md|].
  - intros Hrun. right. revert Hrun.
    unfold process_image, Image_save, write_file, update_files. run.
    rewrite Hmd. run.
    repeat match goal with
           | |- context [match ?x with _ => _ end] => destruct x eqn:?
           end; intros [= <- <-]; simpl; eauto.
  - rewrite (process_image_skip _ _ _ _ _ Hmd). intros [= <- <-]. by left.
Qed.

(** The loop keeps "the flag is set iff a pair is recorded", and while
    the flag is unset no file has changed. *)
Lemma image_loop_invariant folder paths st w st' w' :
  for_each (process_image folder) st paths w = (Ok st', w') →
  (has_data st = true ↔ kmz_images st ≠ []) →
  (has_data st' = true ↔ kmz_images st' ≠ [])
  ∧ (has_data st' = false → files w' = files w ∧ dirs w' = dirs w).
Proof.
  revert st w. induction paths as [|path paths IH]; intros st w; simpl.
  - run. intros [= <- <-]. done.
  - run. destruct (process_image folder st path w) as [[st1|e] w1] eqn:Hstep;
      [|by intros [=]].
    intros Hrest Hinv.
    destruct (process_image_flag _ _ _ _ _ _ Hstep)
      as [(-> & Hf & Hd)|(Hflag & pair & Hpair)].
    + destruct (IH _ _ Hrest Hinv) as [Hiff Hfiles]. split; [done|].
      intros Hno. destruct (Hfiles Hno). split; congruence.
    + assert (has_data st1 = true ↔ kmz_images st1 ≠ []) as Hinv1.
      { rewrite Hpair. split; [intros _ | done]. by destruct (kmz_images st). }
      destruct (IH _ _ Hrest Hinv1) as [Hiff Hfiles]. split; [done|].
      intros Hno. exfalso.
      assert (has_data st' = true); [|congruence].
      clear -Hrest Hflag. revert st1 w1 Hrest Hflag.
      induction paths as [|p ps IHp]; intros st1 w1; simpl; run.
      * by intros [= <- <-].
      * destruct (process_image folder st1 p w1) as [[st2|e] w2] eqn:Hstep;
          [|by intros [=]].
        intros Hrest Hflag. apply (IHp _ _ Hrest).
        destruct (process_image_flag _ _ _ _ _ _ Hstep) as [(-> & _)|[? _]]; done.
Qed.

(** When no candidate yields a record, the loop returns its initial
    variables and has changed no file. *)
Lemma image_loop_no_data folder paths st w :
  (∀ path, path ∈ paths → ∀ w1, files w1 = files w →
     (get_gps_metadata path w1).1 = Ok None) →
  ∃ w', for_each (process_image folder) st paths w = (Ok st, w')
        ∧ files w' = files w ∧ dirs w' = dirs w.
Proof.
  revert w. induction paths as [|path paths IH]; intros w Hnone; simpl.
  - by exists w.
  - pose proof (Hnone path (list_elem_of_here _ _) w eq_refl) as Hhead.
    destruct (read_only_get_gps_metadata path w) as [Hf Hd].
    destruct (get_gps_metadata path w) as [r w1] eqn:Hmd; simpl in *; subst r.
    destruct (IH w1) as (w' & Hrest & Hf' & Hd').
    { intros p Hp w2 Hw2. apply Hnone; [by right | congruence]. }
    exists w'. unfold mbind, M_bind.
    rewrite (process_image_skip _ _ _ _ _ Hmd), Hrest.
    repeat split; congruence.
Qed.

End Packager.

(** C1. In a run of [create_kmz_with_fan_overlay]: whenever the image
    loop has processed every candidate image, the flag is set iff a pair
    was recorded, and if the flag is unset the call raises the "no valid
    GPS metadata" error with every file as it was before the call, so no
    archive is written at the output path. In particular, when no
    candidate image yields a record, the loop ends with the flag unset
    and the call fails in that way. *)
Theorem no_data_no_archive {rt : Runtime} folder output fan w names :
  dirs w !! folder = Some names →
  (∀ st w',
     for_each (process_image folder) no_images (image_paths folder names) w
     = (Ok st, w') →
     (has_data st = true ↔ kmz_images st ≠ [])
     ∧ (has_data st = false →
        create_kmz_with_fan_overlay folder output fan w
        = (Raise (ValueError "No valid GPS metadata found in the uploaded images."),
           w')
        ∧ files w' = files w
        ∧ files w' !! output = files w !! output))
  ∧ ((∀ path, path ∈ image_paths folder names → ∀ w1, files w1 = files w →
        (get_gps_metadata path w1).1 = Ok None) →
     ∃ w',
       for_each (process_image folder) no_images (image_paths folder names) w
       = (Ok no_images, w')
       ∧ create_kmz_with_fan_overlay folder output fan w
         = (Raise (ValueError "No valid GPS metadata found in the uploaded images."),
            w')
       ∧ files w' = files w
       ∧ files w' !! output = files w !! output).
Proof.
  intros Hdir.
  assert (∀ st w',
            for_each (process_image folder) no_images (image_paths folder names) w
            = (Ok st, w') →
            has_data st = false →
            create_kmz_with_fan_overlay folder output fan w
            = (Raise (ValueError "No valid GPS metadata found in the uploaded images."),
               w')) as Hraise.
  { intros st w' Hloop Hno.
    unfold create_kmz_with_fan_overlay, listdir, mbind, M_bind.
    rewrite Hdir, Hloop, Hno. reflexivity. }
  split.
  - intros st w' Hloop.
    destruct (image_loop_invariant _ _ _ _ _ _ Hloop) as [Hiff Hfiles]; [done|].
    split; [done|]. intros Hno. destruct (Hfiles Hno) as [Hf _].
    split; [by apply (Hraise st)|]. split; [done | by rewrite Hf].
  - intros Hnone.
    destruct (image_loop_no_data folder _ no_images w Hnone)
      as (w' & Hloop & Hf & _).
    exists w'. split; [done|]. split; [by apply (Hraise no_images)|].
    split; [done | by rewrite Hf].
Qed.

Lemma no_data_no_archive_witness :
  dirs Sample.plain_world !! "/tmp/in" = Some ["notes.txt"; "scan.PNG"]
  ∧ image_paths "/tmp/in" ["notes.txt"; "scan.PNG"] = ["/tmp/in/scan.PNG"]
  ∧ create_kmz_with_fan_overlay (rt := Sample.runtime) "/tmp/in"
      "/tmp/in/output.kmz" "/tmp/in/Fan.png" Sample.plain_world
    = (Raise (ValueError "No valid GPS metadata found in the uploaded images."),
       Sample.plain_world)
  ∧ files Sample.plain_world !! "/tmp/in/output.kmz" = None.
Proof.
  split; [vm_compute; reflexivity|]. split; [vm_compute; reflexivity|].
  destruct (no_data_no_archive (rt := Sample.runtime) "/tmp/in"
              "/tmp/in/output.kmz" "/tmp/in/Fan.png" Sample.plain_world
              ["notes.txt"; "scan.PNG"]) as [Hflag _];
    [vm_compute; reflexivity|].
  destruct (Hflag no_images Sample.plain_world) as [_ Hraise];
    [vm_compute; reflexivity|].
  destruct Hraise as (Hcall & _ & _); [reflexivity|].
  split; [exact Hcall | vm_compute; reflexivity].
Defined.

(** ** The orientation corrector *)

Section Corrector.
Context {rt : Runtime}.

Lemma assoc_key {V} k (d : list (Z * V)) v : assoc k d = Some v → k ∈ d.*1.
Proof.
  induction d as [|[k' v'] d IH]; simpl; [done|].
  destruct (Z.eqb_spec k k') as [->|Hne]; [intros _; left | right; auto].
Qed.

(** The tag loop stops at the tag that the table names "Orientation". *)
Lemma orientation_key_found o :
  (∀ k, assoc k TAGS = Some "Orientation" ↔ k = o) →
  orientation_key (TAGS.*1) None = Some o.
Proof.
  intros Huniq.
  assert (o ∈ TAGS.*1) as Hin by (eapply assoc_key; by apply Huniq).
  revert Hin. generalize (@None Z). induction (TAGS.*1) as [|k keys IH];
    intros bound Hin; [by apply elem_of_nil in Hin|]. simpl.
  case_bool_decide as Hk.
  - f_equal. by apply Huniq.
  - apply IH. apply elem_of_cons in Hin as [->|Hin]; [|done].
    exfalso. apply Hk. by apply Huniq.
Qed.

Lemma eq_int_exclusive v m n : m ≠ n → eq_int v m = true → eq_int v n = false.
Proof.
  intros Hne. destruct v as [|z|q| | |]; simpl; try done.
  - intros ->%Z.eqb_eq. by apply Z.eqb_neq.
  - intros Hm%Qeq_bool_iff. destruct (Qeq_bool q (inject_Z n)) eqn:Hn; [|done].
    apply Qeq_bool_iff in Hn. rewrite Hm in Hn.
    unfold Qeq in Hn. simpl in Hn. lia.
Qed.

End Corrector.

(** C8. Let [o] be the tag that the tag table names "Orientation". The
    corrector returns the image rotated by 180° when the image's value
    for [o] is 3, by 270° when it is 6 and by 90° when it is 8, each
    time with [expand] set; it returns the image itself for any other
    value, when the tag is absent and when the image has no tag table.
    When reading the tags raises, it returns the image itself and puts a
    warning on the page. It never raises. *)
Theorem orientation_correction {rt : Runtime} (o : Z) image w :
  (∀ k, assoc k TAGS = Some "Orientation" ↔ k = o) →
  (∀ table v, img_exif image = Ok (Some table) → assoc o table = Some v →
     (eq_int v 3 = true →
      correct_image_orientation image w = (Ok (rotate image 180 true), w))
     ∧ (eq_int v 6 = true →
        correct_image_orientation image w = (Ok (rotate image 270 true), w))
     ∧ (eq_int v 8 = true →
        correct_image_orientation image w = (Ok (rotate image 90 true), w))
     ∧ (eq_int v 3 = false → eq_int v 6 = false → eq_int v 8 = false →
        correct_image_orientation image w = (Ok image, w)))
  ∧ (∀ table, img_exif image = Ok (Some table) → assoc o table = None →
     correct_image_orientation image w = (Ok image, w))
  ∧ (img_exif image = Ok None →
     correct_image_orientation image w = (Ok image, w))
  ∧ (∀ e, img_exif image = Raise e →
     correct_image_orientation image w
     = (Ok image,
        World (files w) (dirs w)
          (page w ++ [st_warning "Could not adjust image orientation: " e]))).
Proof.
  intros Huniq. pose proof (orientation_key_found o Huniq) as Hkey.
  unfold correct_image_orientation, try_except, mbind, M_bind, mret, M_ret,
    lift, raise, notify.
  rewrite Hkey. split; [|split; [|split]].
  - intros table v Hexif Hv. rewrite Hexif.
    destruct table as [|item table]; [done|]. cbv beta iota. rewrite Hv.
    repeat split.
    + by intros ->.
    + intros H6. by rewrite (eq_int_exclusive v 6 3), H6.
    + intros H8. by rewrite (eq_int_exclusive v 8 3), (eq_int_exclusive v 8 6), H8.
    + by intros -> -> ->.
  - intros table Hexif Hnone. rewrite Hexif.
    destruct table as [|item table]; [done|]. cbv beta iota. by rewrite Hnone.
  - intros Hexif. by rewrite Hexif.
  - intros e Hexif. by rewrite Hexif.
Qed.

Lemma orientation_correction_witness :
  (∀ k, assoc k (TAGS (Runtime := Sample.runtime)) = Some "Orientation" ↔ k = 274%Z)
  ∧ correct_image_orientation (rt := Sample.runtime)
      (Sample.photo Sample.pittsburgh_exif) Sample.pittsburgh_world
    = (Ok (rotate (Runtime := Sample.runtime)
             (Sample.photo Sample.pittsburgh_exif) 270 true),
       Sample.pittsburgh_world).
Proof.
  assert (∀ k, assoc k (TAGS (Runtime := Sample.runtime)) = Some "Orientation"
               ↔ k = 274%Z) as Huniq.
  { intros k. simpl. unfold Sample.tags, assoc.
    repeat match goal with
           | |- context [Z.eqb k ?n] => destruct (Z.eqb_spec k n) as [->|?]
           end; split; intros; try done; simplify_eq. }
  split; [exact Huniq|].
  destruct (orientation_correction (rt := Sample.runtime) 274
              (Sample.photo Sample.pittsburgh_exif) Sample.pittsburgh_world Huniq)
    as [Hvalue _].
  destruct (Hvalue Sample.pittsburgh_exif (VInt 6) eq_refl eq_refl)
    as (_ & Hsix & _).
  apply Hsix. reflexivity.
Defined.

(** ** Timestamp candidates *)

Section Timestamps.
Context {rt : Runtime}.

(** A candidate that does not parse leaves the date as it was. *)
Lemma scan_date_falls_through tag_name value date_taken msg :
  reformat value = Raise (ValueError msg) →
  scan_date tag_name value date_taken = Ok date_taken.
Proof.
  intros Hfail. unfold scan_date. rewrite Hfail. simpl.
  repeat match goal with |- context [if ?b then _ else _] => destruct b end;
    reflexivity.
Qed.

(** A DateTimeOriginal that parses replaces whatever was found before. *)
Lemma scan_date_original value date_taken s :
  reformat value = Ok s →
  scan_date (inl "DateTimeOriginal") value date_taken = Ok (Some s).
Proof. intros Hs. unfold scan_date. by rewrite Hs. Qed.

(** A DateTime or DateTimeDigitized that parses is taken only while no
    date has been found: whichever of the two is listed first wins. *)
Lemma scan_date_fallback tag_name value date_taken s :
  tag_name = inl "DateTime" ∨ tag_name = inl "DateTimeDigitized" →
  reformat value = Ok s →
  scan_date tag_name value date_taken
  = Ok (if unset date_taken then Some s else date_taken).
Proof.
  intros [-> | ->] Hs; unfold scan_date; rewrite Hs; simpl;
    by destruct (unset date_taken).
Qed.

Lemma key_is_true k name : key_is k name = true ↔ k = inl name.
Proof.
  destruct k as [s|z]; simpl; [|split; [done | intros [=]]].
  rewrite bool_decide_eq_true. split; [by intros -> | by intros [= ->]].
Qed.

Lemma key_is_other k name name' :
  k = inl name → name ≠ name' → key_is k name' = false.
Proof. intros -> Hne. simpl. by apply bool_decide_eq_false. Qed.

Lemma scan_exif_cons st item items :
  scan_exif st (item :: items) = st' ← scan_tag st item; scan_exif st' items.
Proof. reflexivity. Qed.

Lemma scan_exif_app st items items' :
  scan_exif st (items ++ items') = st' ← scan_exif st items; scan_exif st' items'.
Proof.
  revert st. induction items as [|item items IH]; intros st; simpl; [done|].
  destruct (scan_tag st item) as [st1|e]; simpl; [apply IH | done].
Qed.

(** Once a date is found, only a DateTimeOriginal tag can change it. *)
Lemma scan_tag_keeps_date gps s tag value gps' date' :
  s ≠ "" →
  tag_lookup TAGS tag ≠ inl "DateTimeOriginal" →
  scan_tag (gps, Some s) (tag, value) = Ok (gps', date') →
  date' = Some s.
Proof.
  intros Hs Hother. unfold scan_tag, scan_date.
  assert (key_is (tag_lookup TAGS tag) "DateTimeOriginal" = false) as ->.
  { destruct (key_is _ _) eqn:Hk; [|done]. by apply key_is_true in Hk. }
  assert (unset (Some s) = false) as ->.
  { simpl. by apply String.eqb_neq. }
  destruct (key_is _ "GPSInfo").
  - destruct (py_items value); simpl; by intros [= _ <-].
  - rewrite orb_false_r. simpl.
    destruct (key_is _ "DateTime"), (key_is _ "DateTimeDigitized"); simpl;
      by intros [= _ <-].
Qed.

Lemma scan_exif_keeps_date gps s items gps' date' :
  s ≠ "" →
  Forall (λ item, tag_lookup TAGS item.1 ≠ inl "DateTimeOriginal") items →
  scan_exif (gps, Some s) items = Ok (gps', date') →
  date' = Some s.
Proof.
  intros Hs Hitems. revert gps.
  induction Hitems as [|[tag value] items Hitem _ IH]; intros gps.
  - by intros [= _ <-].
  - rewrite scan_exif_cons.
    destruct (scan_tag (gps, Some s) (tag, value)) as [[gps1 date1]|e] eqn:Hstep;
      run; [|done].
    rewrite (scan_tag_keeps_date _ _ _ _ _ _ Hs Hitem Hstep). apply IH.
Qed.

(** First priority: a DateTimeOriginal tag that parses wins wherever it
    is listed, when it is the only tag of that name after it. *)
Lemma original_wins before tag value after s gps date :
  tag_lookup TAGS tag = inl "DateTimeOriginal" →
  reformat value = Ok s →
  s ≠ "" →
  Forall (λ item, tag_lookup TAGS item.1 ≠ inl "DateTimeOriginal") after →
  scan_exif (∅, None) (before ++ (tag, value) :: after) = Ok (gps, date) →
  date = Some s.
Proof.
  intros Htag Hparse Hs Hafter. rewrite scan_exif_app.
  destruct (scan_exif (∅, None) before) as [[gps1 date1]|e]; run; [|done].
  rewrite Htag. run. unfold scan_date. run. rewrite Hparse. run.
  by apply scan_exif_keeps_date.
Qed.

(** Last resort: when no listed candidate parses, the tag loop finds no
    date, and [resolve_date] takes the file's creation time. *)
Lemma no_candidate_parses items gps date gps' date' :
  Forall (λ item,
            key_is (tag_lookup TAGS item.1) "DateTime"
            || key_is (tag_lookup TAGS item.1) "DateTimeOriginal"
            || key_is (tag_lookup TAGS item.1) "DateTimeDigitized" = true →
            ∃ msg, reformat item.2 = Raise (ValueError msg)) items →
  scan_exif (gps, date) items = Ok (gps', date') →
  date' = date.
Proof.
  intros Hitems. revert gps.
  induction Hitems as [|[tag value] items Hfail _ IH]; intros gps.
  - by intros [= _ <-].
  - rewrite scan_exif_cons. unfold scan_tag. simpl in Hfail.
    destruct (key_is _ "GPSInfo"); [destruct (py_items value); run; [|done]|];
      [apply IH|].
    destruct (_ || _).
    + destruct Hfail as [msg Hfail]; [done|].
      rewrite (scan_date_falls_through _ _ _ _ Hfail). run. apply IH.
    + run. apply IH.
Qed.

End Timestamps.

(** ** Runs on concrete photographs *)

(** C4. A latitude triplet whose seconds are 0/0 does convert to [None]
    with a warning and without an exception, but with reference "N" the
    extractor does not return [None]: it returns a record whose latitude
    is [None], and [create_kmz_with_fan_overlay] then raises [TypeError]
    on that record. *)
Theorem malformed_latitude_is_returned :
  convert_to_degrees (rt := Sample.runtime)
    (VTuple [Sample.rational 40 1; Sample.rational 26 1; Sample.rational 0 0])
    Sample.malformed_world
  = (Ok None,
     World (files Sample.malformed_world) (dirs Sample.malformed_world)
       [st_warning "Error converting GPS value to degrees: " ZeroDivisionError])
  ∧ (∃ md w',
       get_gps_metadata (rt := Sample.runtime) "/tmp/in/m.jpg"
         Sample.malformed_world = (Ok (Some md), w')
       ∧ latitude md = None
       ∧ page w'
         = [st_warning "Error converting GPS value to degrees: " ZeroDivisionError])
  ∧ (create_kmz_with_fan_overlay (rt := Sample.runtime) "/tmp/in"
       "/tmp/in/output.kmz" "/tmp/in/Fan.png" Sample.malformed_world).1
    = Raise TypeError.
Proof.
  split; [vm_compute; reflexivity|]. split.
  - do 2 eexists. split; [vm_compute; reflexivity|]. split; reflexivity.
  - vm_compute; reflexivity.
Qed.

(** C5. When the tag table lists a well-formed DateTimeDigitized before
    a well-formed DateTime and has no DateTimeOriginal, the resolved
    timestamp is the DateTimeDigitized one; with the two tags in the
    other order it is the DateTime one. *)
Theorem digitized_wins_when_listed_first :
  (∃ md w',
     get_gps_metadata (rt := Sample.runtime) "/tmp/in/d.jpg"
       Sample.digitized_first_world = (Ok (Some md), w')
     ∧ date_created md = "2020-01-01 00:00:00")
  ∧ (∃ md w',
       get_gps_metadata (rt := Sample.runtime) "/tmp/in/d.jpg"
         Sample.datetime_first_world = (Ok (Some md), w')
       ∧ date_created md = "2021-02-02 12:00:00").
Proof.
  split; do 2 eexists; (split; [vm_compute; reflexivity | reflexivity]).
Qed.

(** The scenario of the specification: one overlay rotated by −45, one
    placemark at the photograph's position, and an archive that holds
    the document and the corrected image under its own name. *)
Example pittsburgh_scenario :
  ∃ w' o p corrected stamp,
    create_kmz_with_fan_overlay (rt := Sample.runtime) "/tmp/in"
      "/tmp/in/output.kmz" "/tmp/in/Fan.png" Sample.pittsburgh_world
    = (Ok (), w')
    ∧ files w' !! "/tmp/in/output.kmz"
      = Some (File (Zip [("doc.kml", Markup [Overlay o; Placemark p]);
                         ("a.JPG", Picture corrected)]) stamp)
    ∧ (go_rotation o == -45)%Q
    ∧ pt_description p
      = [Interp "2023-06-01 10:00:00"; Fixed1 300; Fixed1 45;
         Fixed6 (40 + 26 / 60.0 + 46 / 3600.0);
         Fixed6 (- (79 + 58 / 60.0 + 56 / 3600.0)); Interp "a.JPG"]
    ∧ files w' !! "/tmp/in/doc.kml" = None.
Proof.
  do 5 eexists. split; [vm_compute; reflexivity|].
  split; [vm_compute; reflexivity|]. split; [reflexivity|].
  split; vm_compute; reflexivity.
Qed.

(** * Further properties *)

(** ** What the extractor puts on the page *)

Section Reporting.
Context {rt : Runtime}.

Lemma world_eta w : World (files w) (dirs w) (page w ++ []) = w.
Proof. destruct w. simpl. by rewrite app_nil_r. Qed.

Lemma warns_silent {A} (m : M A) : (∀ w, (m w).2 = w) → warns 0 m.
Proof.
  intros Hm w. exists []. rewrite Hm, world_eta. split; [done|]. by split.
Qed.

Lemma warns_ret {A} (a : A) : warns 0 (mret a).
Proof. by apply warns_silent. Qed.

Lemma warns_lift {A} (r : result A) : warns 0 (lift r).
Proof. by apply warns_silent. Qed.

Lemma warns_more {A} n k (m : M A) : (n ≤ k)%nat → warns n m → warns k m.
Proof.
  intros Hle Hm w. destruct (Hm w) as (ws & ? & ? & ?).
  exists ws. repeat split; [done..|lia].
Qed.

Lemma warns_bind {A B} n k (m : M A) (f : A → M B) :
  warns n m → (∀ a, warns k (f a)) → warns (n + k) (m ≫= f).
Proof.
  intros Hm Hf w. destruct (Hm w) as (ws & Hw & Hws & Hn).
  unfold mbind, M_bind. destruct (m w) as [[a|e] w1]; simpl in *; subst w1.
  - destruct (Hf a (World (files w) (dirs w) (page w ++ ws)))
      as (ws' & Hw' & Hws' & Hk).
    exists (ws ++ ws'). rewrite Hw'. simpl. rewrite <- app_assoc.
    split; [done|]. split; [by apply Forall_app|]. rewrite length_app. lia.
  - exists ws. repeat split; [done|lia].
Qed.

Lemma warns_read_file path : warns 0 (read_file path).
Proof.
  apply warns_silent. intros w. unfold read_file. by destruct (files w !! path).
Qed.

Lemma warns_Image_open path : warns 0 (Image_open path).
Proof.
  apply (warns_bind 0 0); [apply warns_read_file|]. intros f.
  destruct (f_content f); first [apply warns_ret | apply warns_lift].
Qed.

Lemma warns_resolve_date path date : warns 0 (resolve_date path date).
Proof.
  assert (warns 0 (t ← getctime path;
                   mret (strftime (fromtimestamp t) "%Y-%m-%d %H:%M:%S"))).
  { apply (warns_bind 0 0); [|intros; apply warns_ret].
    apply (warns_bind 0 0); [apply warns_read_file | intros; apply warns_ret]. }
  unfold resolve_date. destruct date as [s|]; [|done].
  destruct (String.eqb s ""); [done | apply warns_ret].
Qed.

Lemma warns_convert_to_degrees value : warns 1 (convert_to_degrees value).
Proof.
  intros w. unfold convert_to_degrees. run.
  destruct (degrees_of value) as [q|e]; simpl.
  - exists []. rewrite world_eta. split; [done|]. split; [done | simpl; lia].
  - eexists [_]. split; [done|]. split; [|done].
    apply Forall_singleton. by eexists.
Qed.

Lemma warns_locate gps date : warns 2 (locate gps date).
Proof.
  unfold locate. destruct (bool_decide _); [apply (warns_more 0); [lia|apply warns_ret]|].
  destruct (_ && _); [|apply (warns_more 0); [lia|apply warns_ret]].
  apply (warns_bind 1 1).
  { apply (warns_bind 0 1); [apply warns_lift|]. intros; apply warns_convert_to_degrees. }
  intros lat. apply (warns_bind 1 0).
  { apply (warns_bind 0 1); [apply warns_lift|]. intros; apply warns_convert_to_degrees. }
  intros lon.
  repeat first
    [ apply warns_ret | apply warns_lift
    | apply (warns_bind 0 0); [|intros ?]
    | match goal with |- warns _ (if ?b then _ else _) => destruct b end ].
Qed.

(** The [try] block of the extractor. *)
Lemma warns_extraction path :
  warns 2
    (image ← Image_open path;
     exif_data ← lift (img_exif image);
     match exif_data with
     | None | Some [] => mret None
     | Some exif_data =>
         '(gps_info, date_taken) ← lift (scan_exif (∅, None) exif_data);
         date_taken ← resolve_date path date_taken;
         locate gps_info date_taken
     end).
Proof.
  apply (warns_bind 0 2); [apply warns_Image_open|]. intros image.
  apply (warns_bind 0 2); [apply warns_lift|].
  intros [[|item table]|]; try (apply (warns_more 0); [lia|apply warns_ret]).
  apply (warns_bind 0 2); [apply warns_lift|]. intros [gps date].
  apply (warns_bind 0 2); [apply warns_resolve_date|]. intros d.
  apply warns_locate.
Qed.

End Reporting.

(** X1. The extractor never raises and changes no file or directory. It
    puts at most two conversion warnings on the page, followed by at most
    one extraction error for the image; when it reports that error it
    returns [None]. *)
Theorem extractor_is_safe {rt : Runtime} path w :
  ∃ r w' ws,
    get_gps_metadata path w = (Ok r, w')
    ∧ files w' = files w ∧ dirs w' = dirs w
    ∧ Forall conversion_warning ws ∧ (List.length ws ≤ 2)%nat
    ∧ (page w' = page w ++ ws
       ∨ (r = None
          ∧ ∃ e, page w'
                 = page w ++ ws
                   ++ [st_error ("Error extracting metadata from " +:+ path +:+ ": ") e])).
Proof.
  destruct (warns_extraction path w) as (ws & Hw & Hws & Hlen).
  unfold get_gps_metadata, try_except.
  match goal with |- context [match ?body w with _ => _ end] =>
    destruct (body w) as [[r|e] w1] end; simpl in Hw; subst w1.
  - exists r. eexists. exists ws. split; [reflexivity|]. simpl.
    repeat split; [done..|]. by left.
  - exists None. eexists. exists ws. split; [reflexivity|]. simpl.
    repeat split; [done..|]. right. split; [done|]. exists e.
    by rewrite <- app_assoc.
Qed.

(** X2. When the path cannot be opened as an image (no file, or a file
    that is not an image) or reading the image's tags raises, the
    extractor returns [None] and puts exactly one extraction error for
    that path on the page, carrying the exception. *)
Theorem unreadable_image_is_reported {rt : Runtime} path w e :
  (files w !! path = None ∧ e = FileNotFoundError)
  ∨ (∃ c ct, files w !! path = Some (File c ct)
             ∧ (∀ img, c ≠ Picture img) ∧ e = UnidentifiedImageError)
  ∨ (∃ img ct, files w !! path = Some (File (Picture img) ct)
               ∧ img_exif img = Raise e) →
  get_gps_metadata path w
  = (Ok None,
     World (files w) (dirs w)
       (page w ++ [st_error ("Error extracting metadata from " +:+ path +:+ ": ") e])).
Proof.
  unfold get_gps_metadata, Image_open, read_file.
  intros [[Hf ->]|[(c & ct & Hf & Hc & ->)|(img & ct & Hf & Hexif)]]; run;
    rewrite Hf; run.
  - done.
  - destruct c; run; try done. by destruct (Hc img).
  - by rewrite Hexif.
Qed.

Lemma unreadable_image_is_reported_witness :
  files Sample.plain_world !! "/tmp/in/notes.txt" = None
  ∧ get_gps_metadata (rt := Sample.runtime) "/tmp/in/notes.txt" Sample.plain_world
    = (Ok None,
       World (files Sample.plain_world) (dirs Sample.plain_world)
         [st_error "Error extracting metadata from /tmp/in/notes.txt: "
            FileNotFoundError]).
Proof.
  split; [vm_compute; reflexivity|].
  apply (unreadable_image_is_reported (rt := Sample.runtime)
           "/tmp/in/notes.txt" Sample.plain_world FileNotFoundError).
  left. split; [vm_compute; reflexivity | reflexivity].
Defined.

(** X3. An image without tag table ([_getexif()] gives [None] or an
    empty dict) is excluded silently: the extractor returns [None] and
    nothing at all changes, the page included. *)
Theorem image_without_tags_is_skipped {rt : Runtime} path w img ct :
  files w !! path = Some (File (Picture img) ct) →
  img_exif img = Ok None ∨ img_exif img = Ok (Some []) →
  get_gps_metadata path w = (Ok None, w).
Proof.
  intros Hf Hexif. unfold get_gps_metadata, Image_open, read_file. run.
  rewrite Hf. run. by destruct Hexif as [-> | ->].
Qed.

Lemma image_without_tags_is_skipped_witness :
  get_gps_metadata (rt := Sample.runtime) "/tmp/in/scan.PNG" Sample.plain_world
  = (Ok None, Sample.plain_world).
Proof.
  eapply (image_without_tags_is_skipped (rt := Sample.runtime)
            "/tmp/in/scan.PNG" Sample.plain_world);
    [vm_compute; reflexivity | left; reflexivity].
Defined.

Section Blocks.
Context {rt : Runtime}.

(** Tags other than a non-empty GPS sub-block leave [gps_info] alone. *)
Lemma scan_exif_no_gps items gps date gps' date' :
  Forall (λ item, tag_lookup TAGS item.1 = inl "GPSInfo" → item.2 = VDict [])
    items →
  scan_exif (gps, date) items = Ok (gps', date') →
  gps' = gps.
Proof.
  intros Hitems. revert gps date.
  induction Hitems as [|[tag value] items Hitem _ IH]; intros gps date.
  - by intros [= <- _].
  - rewrite scan_exif_cons. unfold scan_tag. simpl in Hitem.
    destruct (key_is _ "GPSInfo") eqn:Hk.
    + apply key_is_true in Hk. rewrite (Hitem Hk). run. apply IH.
    + destruct (_ || _); run; [|apply IH].
      destruct (scan_date _ _ _); run; [apply IH | done].
Qed.

Lemma locate_empty date w : locate ∅ date w = (Ok None, w).
Proof. reflexivity. Qed.

Lemma locate_incomplete gps date w :
  gps !! inl "GPSLatitude" = None ∨ gps !! inl "GPSLongitude" = None →
  locate gps date w = (Ok None, w).
Proof.
  intros Hmiss. unfold locate. destruct (bool_decide (size gps = 0%nat)); [done|].
  destruct Hmiss as [-> | ->].
  - by rewrite (bool_decide_eq_false_2 (is_Some None)) by (by intros [? ?]).
  - rewrite (bool_decide_eq_false_2 (is_Some None)) by (by intros [? ?]).
    by rewrite andb_false_r.
Qed.

(** [locate] when the altitude tag cannot be read. *)
Lemma locate_bad_altitude gps date w vlat vlon la lo rla rlo e :
  gps !! inl "GPSLatitude" = Some vlat →
  gps !! inl "GPSLongitude" = Some vlon →
  degrees_of vlat = Ok la →
  degrees_of vlon = Ok lo →
  gps !! inl "GPSLatitudeRef" = Some rla →
  gps !! inl "GPSLongitudeRef" = Some rlo →
  rational_or_number
    (default (VTuple [VInt 0; VInt 1]) (gps !! inl "GPSAltitude")) = Raise e →
  locate gps date w = (Raise e, w).
Proof.
  intros Hlat Hlon Hla Hlo Hrla Hrlo Halt. unfold locate, getitem.
  rewrite (size_nonzero _ _ _ Hlat), Hlat, Hlon, Hrla, Hrlo.
  rewrite !bool_decide_eq_true_2 by eauto. run.
  rewrite (convert_to_degrees_ok _ _ _ Hla), (convert_to_degrees_ok _ _ _ Hlo).
  destruct (eq_str rla "S"), (eq_str rlo "W"); simpl; by rewrite Halt.
Qed.

End Blocks.

(** X4. An image whose tag table has no GPS sub-block, or only empty
    ones, yields [None], whatever its other tags are. *)
Theorem no_gps_block_is_no_data {rt : Runtime} path w img ct table :
  files w !! path = Some (File (Picture img) ct) →
  img_exif img = Ok (Some table) →
  Forall (λ item, tag_lookup TAGS item.1 = inl "GPSInfo" → item.2 = VDict [])
    table →
  (get_gps_metadata path w).1 = Ok None.
Proof.
  intros Hf Hexif Hnone.
  destruct (scan_exif (∅, None) table) as [[gps date]|e] eqn:Hscan.
  - destruct table as [|item table].
    { by rewrite (image_without_tags_is_skipped _ _ _ _ Hf (or_intror Hexif)). }
    rewrite (get_gps_metadata_scanned _ _ _ _ _ _ _ Hf Hexif ltac:(done) Hscan).
    rewrite (scan_exif_no_gps _ _ _ _ _ Hnone Hscan).
    unfold try_except, mbind, M_bind.
    by rewrite (resolve_date_found _ _ _ _ Hf), locate_empty.
  - unfold get_gps_metadata, Image_open, read_file, try_except, mbind, M_bind,
      lift.
    rewrite Hf. simpl. rewrite Hexif.
    destruct table as [|item table]; [done|]. by rewrite Hscan.
Qed.

Lemma no_gps_block_is_no_data_witness :
  Forall (λ item, tag_lookup (TAGS (Runtime := Sample.runtime)) item.1
                  = inl "GPSInfo" → item.2 = VDict [])
    Sample.no_gps_exif
  ∧ (get_gps_metadata (rt := Sample.runtime) "/tmp/in/n.jpg" Sample.no_gps_world).1
    = Ok None.
Proof.
  assert (Forall (λ item, tag_lookup (TAGS (Runtime := Sample.runtime)) item.1
                          = inl "GPSInfo" → item.2 = VDict [])
            Sample.no_gps_exif) as Hnone.
  { repeat constructor; vm_compute; discriminate. }
  split; [exact Hnone|].
  eapply (no_gps_block_is_no_data (rt := Sample.runtime) "/tmp/in/n.jpg"
            Sample.no_gps_world _ _ Sample.no_gps_exif);
    [vm_compute; reflexivity | reflexivity | exact Hnone].
Defined.

(** X5. An image whose GPS sub-block lacks the latitude or the longitude
    is excluded silently: the extractor returns [None] and nothing at
    all changes, the page included. *)
Theorem one_coordinate_is_no_data {rt : Runtime} path w img ct table gps date :
  files w !! path = Some (File (Picture img) ct) →
  img_exif img = Ok (Some table) →
  scan_exif (∅, None) table = Ok (gps, date) →
  gps !! inl "GPSLatitude" = None ∨ gps !! inl "GPSLongitude" = None →
  get_gps_metadata path w = (Ok None, w).
Proof.
  intros Hf Hexif Hscan Hmiss.
  destruct table as [|item table].
  { by apply (image_without_tags_is_skipped _ _ _ _ Hf (or_intror Hexif)). }
  rewrite (get_gps_metadata_scanned _ _ _ _ _ _ _ Hf Hexif ltac:(done) Hscan).
  unfold try_except, mbind, M_bind.
  by rewrite (resolve_date_found _ _ _ _ Hf), (locate_incomplete _ _ _ Hmiss).
Qed.

Lemma one_coordinate_is_no_data_witness :
  scan_exif (rt := Sample.runtime) (∅, None) Sample.latitude_only_exif
  = Ok (Sample.latitude_only_tags, None)
  ∧ Sample.latitude_only_tags !! inl "GPSLongitude" = None
  ∧ get_gps_metadata (rt := Sample.runtime) "/tmp/in/l.jpg"
      Sample.latitude_only_world
    = (Ok None, Sample.latitude_only_world).
Proof.
  split; [vm_compute; reflexivity|]. split; [vm_compute; reflexivity|].
  eapply (one_coordinate_is_no_data (rt := Sample.runtime) "/tmp/in/l.jpg"
            Sample.latitude_only_world _ _ Sample.latitude_only_exif
            Sample.latitude_only_tags None);
    [vm_compute; reflexivity | reflexivity | vm_compute; reflexivity
    | right; vm_compute; reflexivity].
Defined.

(** X6. When latitude, longitude and both references are there and the
    GPS sub-block has neither an altitude nor an image direction, the
    returned record has altitude 0 and heading 0. *)
Theorem altitude_and_heading_default {rt : Runtime} path w img ct table gps date
    vlat vlon la lo rla rlo :
  files w !! path = Some (File (Picture img) ct) →
  img_exif img = Ok (Some table) →
  scan_exif (∅, None) table = Ok (gps, date) →
  gps !! inl "GPSLatitude" = Some vlat →
  gps !! inl "GPSLongitude" = Some vlon →
  degrees_of vlat = Ok la →
  degrees_of vlon = Ok lo →
  gps !! inl "GPSLatitudeRef" = Some rla →
  gps !! inl "GPSLongitudeRef" = Some rlo →
  gps !! inl "GPSAltitude" = None →
  gps !! inl "GPSImgDirection" = None →
  ∃ md, get_gps_metadata path w = (Ok (Some md), w)
        ∧ (altitude md == 0)%Q
        ∧ orientation md = VInt 0
        ∧ py_float (orientation md) = Ok 0%Q.
Proof.
  intros Hf Hexif Hscan Hlat Hlon Hla Hlo Hrla Hrlo Halt Hdir.
  eexists. split.
  - rewrite (get_gps_metadata_scanned _ _ _ _ _ _ _ Hf Hexif
               (scan_exif_gps_nonempty _ _ _ _ _ Hscan Hlat) Hscan).
    unfold try_except, mbind, M_bind.
    rewrite (resolve_date_found _ _ _ _ Hf).
    rewrite (locate_found _ _ _ _ _ _ _ _ _ (0 / 1)%Q Hlat Hlon Hla Hlo Hrla Hrlo);
      [reflexivity|]. by rewrite Halt.
  - simpl. rewrite Hdir. by repeat split.
Qed.

Lemma altitude_and_heading_default_witness :
  scan_exif (rt := Sample.runtime) (∅, None) Sample.bare_exif
  = Ok (Sample.bare_tags, None)
  ∧ Sample.bare_tags !! inl "GPSAltitude" = None
  ∧ Sample.bare_tags !! inl "GPSImgDirection" = None
  ∧ ∃ md, get_gps_metadata (rt := Sample.runtime) "/tmp/in/c.jpg" Sample.bare_world
          = (Ok (Some md), Sample.bare_world)
          ∧ (altitude md == 0)%Q
          ∧ orientation md = VInt 0
          ∧ py_float (rt := Sample.runtime) (orientation md) = Ok 0%Q.
Proof.
  split; [vm_compute; reflexivity|]. split; [vm_compute; reflexivity|].
  split; [vm_compute; reflexivity|].
  eapply (altitude_and_heading_default (rt := Sample.runtime) "/tmp/in/c.jpg"
            Sample.bare_world _ _ Sample.bare_exif Sample.bare_tags None
            (Sample.dms 40 26 46) (Sample.dms 79 58 56) _ _ (VStr "N") (VStr "E"));
    vm_compute; reflexivity.
Defined.

(** X7. An altitude tag that cannot be read (for instance a rational
    with denominator zero) costs the whole image: although latitude and
    longitude convert, the extractor returns [None] and reports the
    exception as an extraction error. *)
Theorem unreadable_altitude_drops_image {rt : Runtime} path w img ct table gps date
    vlat vlon la lo rla rlo e :
  files w !! path = Some (File (Picture img) ct) →
  img_exif img = Ok (Some table) →
  scan_exif (∅, None) table = Ok (gps, date) →
  gps !! inl "GPSLatitude" = Some vlat →
  gps !! inl "GPSLongitude" = Some vlon →
  degrees_of vlat = Ok la →
  degrees_of vlon = Ok lo →
  gps !! inl "GPSLatitudeRef" = Some rla →
  gps !! inl "GPSLongitudeRef" = Some rlo →
  rational_or_number
    (default (VTuple [VInt 0; VInt 1]) (gps !! inl "GPSAltitude")) = Raise e →
  get_gps_metadata path w
  = (Ok None,
     World (files w) (dirs w)
       (page w ++ [st_error ("Error extracting metadata from " +:+ path +:+ ": ") e])).
Proof.
  intros Hf Hexif Hscan Hlat Hlon Hla Hlo Hrla Hrlo Halt.
  rewrite (get_gps_metadata_scanned _ _ _ _ _ _ _ Hf Hexif
             (scan_exif_gps_nonempty _ _ _ _ _ Hscan Hlat) Hscan).
  unfold try_except, mbind, M_bind.
  rewrite (resolve_date_found _ _ _ _ Hf).
  by rewrite (locate_bad_altitude _ _ _ _ _ _ _ _ _ _ Hlat Hlon Hla Hlo Hrla Hrlo Halt).
Qed.

Lemma unreadable_altitude_drops_image_witness :
  scan_exif (rt := Sample.runtime) (∅, None) Sample.bad_altitude_exif
  = Ok (Sample.bad_altitude_tags, None)
  ∧ rational_or_number (rt := Sample.runtime) (Sample.rational 5 0)
    = Raise ZeroDivisionError
  ∧ get_gps_metadata (rt := Sample.runtime) "/tmp/in/h.jpg"
      Sample.bad_altitude_world
    = (Ok None,
       World (files Sample.bad_altitude_world) (dirs Sample.bad_altitude_world)
         [st_error "Error extracting metadata from /tmp/in/h.jpg: "
            ZeroDivisionError]).
Proof.
  split; [vm_compute; reflexivity|]. split; [vm_compute; reflexivity|].
  eapply (unreadable_altitude_drops_image (rt := Sample.runtime) "/tmp/in/h.jpg"
            Sample.bad_altitude_world _ _ Sample.bad_altitude_exif
            Sample.bad_altitude_tags None (Sample.dms 40 26 46)
            (Sample.dms 79 58 56) _ _ (VStr "N") (VStr "E") ZeroDivisionError);
    vm_compute; reflexivity.
Defined.

(** X8. A coordinate with fewer than three components never converts:
    [convert_to_degrees] returns [None] and puts one warning on the
    page, whatever the components are. *)
Theorem short_triplet_never_converts {rt : Runtime} (items : list pyval) w :
  (List.length items < 3)%nat →
  ∃ e, convert_to_degrees (VTuple items) w
       = (Ok None,
          World (files w) (dirs w)
            (page w ++ [st_warning "Error converting GPS value to degrees: " e])).
Proof.
  intros Hshort.
  assert (∃ e, degrees_of (VTuple items) = Raise e) as [e He].
  { unfold degrees_of.
    destruct items as [|a [|b [|c rest]]]; simpl in *; try lia; run;
      repeat match goal with
             | |- context [match rational_or_number ?x with _ => _ end] =>
                 destruct (rational_or_number x); run
             end; by eexists. }
  exists e. by apply convert_to_degrees_fails.
Qed.

Lemma short_triplet_never_converts_witness :
  ∃ e, convert_to_degrees (rt := Sample.runtime)
         (VTuple [Sample.rational 40 1; Sample.rational 26 1]) Sample.plain_world
       = (Ok None,
          World (files Sample.plain_world) (dirs Sample.plain_world)
            (page Sample.plain_world
             ++ [st_warning "Error converting GPS value to degrees: " e])).
Proof.
  apply (short_triplet_never_converts (rt := Sample.runtime)
           [Sample.rational 40 1; Sample.rational 26 1] Sample.plain_world).
  simpl. lia.
Defined.

(** X10. The orientation corrector never raises and changes no file or
    directory. It returns the image itself or the image rotated by 90,
    180 or 270 degrees with [expand] set, nothing else; a rotated image
    comes without a message, and the only message it can put on the page
    is one orientation warning, with the image returned as it was. *)
Theorem corrector_is_safe {rt : Runtime} image w :
  ∃ r w',
    correct_image_orientation image w = (Ok r, w')
    ∧ files w' = files w ∧ dirs w' = dirs w
    ∧ ((page w' = page w
        ∧ (r = image ∨ r = rotate image 90 true ∨ r = rotate image 180 true
           ∨ r = rotate image 270 true))
       ∨ (r = image
          ∧ ∃ e, page w'
                 = page w ++ [st_warning "Could not adjust image orientation: " e])).
Proof.
  unfold correct_image_orientation, try_except, mbind, M_bind, lift, raise,
    mret, M_ret, notify.
  destruct (img_exif image) as [[[|item table]|]|e]; cbv beta iota;
    try (do 2 eexists; split; [reflexivity|]; simpl; repeat split;
         first [by left; split; [|left] | by right; split; [|eexists]]).
  destruct (orientation_key _ _) as [o|]; cbv beta iota;
    [|do 2 eexists; split; [reflexivity|]; simpl; repeat split;
      by right; split; [|eexists]].
  destruct (assoc o (item :: table)) as [v|]; cbv beta iota;
    [|do 2 eexists; split; [reflexivity|]; simpl; repeat split;
      by left; split; [|left]].
  destruct (eq_int v 3); [|destruct (eq_int v 6); [|destruct (eq_int v 8)]];
    cbv beta iota;
    do 2 eexists; (split; [reflexivity|]); simpl; repeat split; left;
    (split; [done|]); auto.
Qed.

(** ** The date the tag loop finds *)

Section Dates.
Context {rt : Runtime}.

(** The date after one tag. *)
Lemma scan_tag_date gps date tag value gps1 date1 :
  scan_tag (gps, date) (tag, value) = Ok (gps1, date1) →
  date1 = match reformat value with
          | Ok s =>
              if key_is (tag_lookup TAGS tag) "DateTimeOriginal" then Some s
              else if unset date
                      && (key_is (tag_lookup TAGS tag) "DateTime"
                          || key_is (tag_lookup TAGS tag) "DateTimeDigitized")
              then Some s
              else date
          | Raise _ => date
          end.
Proof.
  unfold scan_tag, scan_date.
  destruct (key_is (tag_lookup TAGS tag) "GPSInfo") eqn:HG,
    (key_is (tag_lookup TAGS tag) "DateTimeOriginal") eqn:HO,
    (key_is (tag_lookup TAGS tag) "DateTime") eqn:HD,
    (key_is (tag_lookup TAGS tag) "DateTimeDigitized") eqn:HT;
    repeat match goal with
           | H : key_is _ _ = true |- _ => apply key_is_true in H
           end; try congruence;
    destruct (reformat value) as [s|[]], (unset date), (py_items value);
    run; intros [= <- <-]; reflexivity.
Qed.

Lemma scan_exif_date items gps date gps' date' :
  (∀ v s, reformat v = Ok s → s ≠ "") →
  date = None ∨ (∃ s, date = Some s ∧ s ≠ "") →
  scan_exif (gps, date) items = Ok (gps', date') →
  date' = match last (date_candidates ["DateTimeOriginal"] items) with
          | Some s => Some s
          | None =>
              match date with
              | None =>
                  head (date_candidates ["DateTime"; "DateTimeDigitized"] items)
              | Some _ => date
              end
          end.
Proof.
  intros Hfull. revert gps date.
  induction items as [|[tag value] items IH]; intros gps date Hdate.
  - intros [= _ <-]. simpl. by destruct date.
  - rewrite scan_exif_cons.
    destruct (scan_tag (gps, date) (tag, value)) as [[gps1 date1]|e] eqn:Hstep;
      run; [|done].
    apply scan_tag_date in Hstep. intros Hrest.
    assert (date1 = None ∨ (∃ s, date1 = Some s ∧ s ≠ "")) as Hdate1.
    { subst date1. destruct (reformat value) as [s|] eqn:Hparse; [|done].
      pose proof (Hfull _ _ Hparse).
      destruct (key_is _ "DateTimeOriginal"); [right; eauto|].
      destruct (unset date && _); [right; eauto | done]. }
    rewrite (IH _ _ Hdate1 Hrest). unfold date_candidates. simpl.
    rewrite !orb_false_r. subst date1.
    assert (unset date = match date with None => true | Some _ => false end)
      as Hunset.
    { destruct Hdate as [->|(s & -> & Hs)]; [done|]. simpl.
      by apply String.eqb_neq. }
    rewrite Hunset. clear Hunset Hdate Hdate1 Hrest IH.
    destruct (key_is (tag_lookup TAGS tag) "DateTimeOriginal"),
      (key_is (tag_lookup TAGS tag) "DateTime"),
      (key_is (tag_lookup TAGS tag) "DateTimeDigitized"),
      (reformat value) as [s|], date as [s0|]; simpl;
      rewrite ?last_cons; try done; by destruct (last _).
Qed.

(** The record that [locate] returns carries the date it was given. *)
Lemma locate_date gps date w md w' :
  locate gps date w = (Ok (Some md), w') → date_created md = date.
Proof.
  unfold locate, getitem. run.
  repeat match goal with
         | |- context [match ?x with _ => _ end] => destruct x eqn:?
         | |- context [if ?x then _ else _] => destruct x eqn:?
         end; intros [= <- <-]; reflexivity.
Qed.

End Dates.

Section Resolution.
Context {rt : Runtime}.

Lemma scan_exif_date_set items gps date gps' date' :
  (∀ v s, reformat v = Ok s → s ≠ "") →
  date = None ∨ (∃ s, date = Some s ∧ s ≠ "") →
  scan_exif (gps, date) items = Ok (gps', date') →
  date' = None ∨ (∃ s, date' = Some s ∧ s ≠ "").
Proof.
  intros Hfull. revert gps date.
  induction items as [|[tag value] items IH]; intros gps date Hdate.
  - by intros [= _ <-].
  - rewrite scan_exif_cons.
    destruct (scan_tag (gps, date) (tag, value)) as [[gps1 date1]|e] eqn:Hstep;
      run; [|done].
    apply scan_tag_date in Hstep. apply IH. subst date1.
    destruct (reformat value) as [s|] eqn:Hparse; [|done].
    pose proof (Hfull _ _ Hparse).
    destruct (key_is _ "DateTimeOriginal"); [right; eauto|].
    destruct (unset date && _); [right; eauto | done].
Qed.

(** The extractor when the tag loop raises. *)
Lemma get_gps_metadata_scan_fails path w img ct table e :
  files w !! path = Some (File (Picture img) ct) →
  img_exif img = Ok (Some table) →
  scan_exif (∅, None) table = Raise e →
  get_gps_metadata path w
  = (Ok None,
     World (files w) (dirs w)
       (page w ++ [st_error ("Error extracting metadata from " +:+ path +:+ ": ") e])).
Proof.
  intros Hf Hexif Hscan.
  unfold get_gps_metadata, Image_open, read_file, try_except, mbind, M_bind,
    lift.
  rewrite Hf. simpl. rewrite Hexif.
  destruct table as [|item table]; [done|]. by rewrite Hscan.
Qed.

End Resolution.

(** X9. The timestamp of a returned record, provided reformatting never
    yields an empty string: it is the last listed DateTimeOriginal value
    that parses; without one, the first listed value among the DateTime
    and DateTimeDigitized tags that parses; without any, the creation
    time of the file, in the form %Y-%m-%d %H:%M:%S. *)
Theorem resolved_timestamp {rt : Runtime} path w img ct table md w' :
  (∀ v s, reformat v = Ok s → s ≠ "") →
  files w !! path = Some (File (Picture img) ct) →
  img_exif img = Ok (Some table) →
  get_gps_metadata path w = (Ok (Some md), w') →
  date_created md
  = match expected_date table with
    | Some s => s
    | None => strftime (fromtimestamp ct) "%Y-%m-%d %H:%M:%S"
    end.
Proof.
  intros Hfull Hf Hexif Hmd.
  destruct (scan_exif (∅, None) table) as [[gps date]|e] eqn:Hscan.
  - destruct table as [|item table].
    { by rewrite (image_without_tags_is_skipped _ _ _ _ Hf (or_intror Hexif))
        in Hmd. }
    rewrite (get_gps_metadata_scanned _ _ _ _ _ _ _ Hf Hexif ltac:(done) Hscan)
      in Hmd.
    unfold try_except, mbind, M_bind in Hmd.
    rewrite (resolve_date_found _ _ _ _ Hf) in Hmd.
    match type of Hmd with context [locate gps ?d w] =>
      destruct (locate gps d w) as [[r|e] w2] eqn:Hloc end;
      [|by simplify_eq/=].
    injection Hmd as -> ->. rewrite (locate_date _ _ _ _ _ Hloc). simpl.
    pose proof (scan_exif_date _ _ _ _ _ Hfull (or_introl eq_refl) Hscan) as Hdate.
    destruct (scan_exif_date_set _ _ _ _ _ Hfull (or_introl eq_refl) Hscan)
      as [->|(s & -> & Hs)].
    + unfold expected_date. by rewrite <- Hdate.
    + unfold expected_date. rewrite <- Hdate.
      by apply String.eqb_neq in Hs as ->.
  - by rewrite (get_gps_metadata_scan_fails _ _ _ _ _ _ Hf Hexif Hscan) in Hmd.
Qed.

Lemma resolved_timestamp_witness :
  (∀ v s, reformat (rt := Sample.runtime) v = Ok s → s ≠ "")
  ∧ expected_date (rt := Sample.runtime) Sample.pittsburgh_exif
    = Some "2023-06-01 10:00:00"
  ∧ ∃ md, get_gps_metadata (rt := Sample.runtime) "/tmp/in/a.JPG"
            Sample.pittsburgh_world
          = (Ok (Some md), Sample.pittsburgh_world)
          ∧ date_created md = "2023-06-01 10:00:00".
Proof.
  assert (∀ v s, reformat (rt := Sample.runtime) v = Ok s → s ≠ "") as Hfull.
  { intros v s. unfold reformat. simpl.
    destruct (Sample.parse _ _) as [dt|e]; [|discriminate].
    intros [= <-]. vm_compute. discriminate. }
  split; [exact Hfull|]. split; [vm_compute; reflexivity|].
  eexists. split; [vm_compute; reflexivity|].
  exact (resolved_timestamp (rt := Sample.runtime) "/tmp/in/a.JPG"
           Sample.pittsburgh_world (Sample.photo Sample.pittsburgh_exif)
           1685613600 Sample.pittsburgh_exif _ Sample.pittsburgh_world Hfull
           eq_refl eq_refl eq_refl).
Defined.

(** ** The extension filter *)

Section Filter.

Lemma lower_app a b : lower (a +:+ b) = lower a +:+ lower b.
Proof.
  induction a as [|c a IH]; [done|]. rewrite !app_cons. simpl.
  by rewrite IH, app_cons.
Qed.

Lemma length_lower s : String.length (lower s) = String.length s.
Proof. induction s as [|c s IH]; simpl; [done | by rewrite IH]. Qed.

Lemma lower_drop_chars n s : lower (drop_chars n s) = drop_chars n (lower s).
Proof.
  revert s. induction n as [|n IH]; intros [|c s]; simpl; auto.
Qed.

Lemma length_app a b :
  String.length (a +:+ b) = (String.length a + String.length b)%nat.
Proof.
  induction a as [|c a IH]; [done|]. rewrite app_cons. simpl. by rewrite IH.
Qed.

Lemma endswith_app a suffix : endswith (a +:+ suffix) suffix = true.
Proof.
  unfold endswith. rewrite length_app. apply andb_true_iff. split.
  - apply Nat.leb_le. lia.
  - replace (String.length a + String.length suffix - String.length suffix)%nat
      with (String.length a) by lia.
    rewrite drop_chars_app. apply String.eqb_refl.
Qed.

Lemma drop_chars_split n s : ∃ a, s = a +:+ drop_chars n s.
Proof.
  revert s. induction n as [|n IH]; intros s; [by exists ""|].
  destruct s as [|c s]; [by exists ""|]. destruct (IH s) as [a Ha].
  exists (String c a). rewrite app_cons. simpl. by f_equal.
Qed.

(** A name passes one suffix test of the filter iff it ends in a
    spelling of that suffix. *)
Lemma endswith_lower f suffix :
  endswith (lower f) suffix = true
  ↔ ∃ stem ext, f = stem +:+ ext ∧ lower ext = suffix.
Proof.
  split.
  - unfold endswith. intros [_ Heq%String.eqb_eq]%andb_true_iff.
    rewrite <- lower_drop_chars in Heq.
    destruct (drop_chars_split
                (String.length (lower f) - String.length suffix) f) as [a Ha].
    eauto.
  - intros (stem & ext & -> & <-). rewrite lower_app. apply endswith_app.
Qed.

End Filter.

(** X11. The extension filter is a case-insensitive suffix test: a
    directory entry is a candidate iff it ends in some spelling of
    .jpg, .jpeg or .png, whatever the case of each letter. *)
Theorem candidate_iff_extension f :
  is_candidate f = true
  ↔ ∃ stem ext,
      f = stem +:+ ext
      ∧ (lower ext = ".jpg" ∨ lower ext = ".jpeg" ∨ lower ext = ".png").
Proof.
  unfold is_candidate. rewrite !orb_true_iff, !endswith_lower. split.
  - intros [[(stem & ext & ? & ?)|(stem & ext & ? & ?)]|(stem & ext & ? & ?)];
      exists stem, ext; auto.
  - intros (stem & ext & ? & [?|[?|?]]); [left; left | left; right | right];
      by exists stem, ext.
Qed.

(** ** From the GPS sub-block to [gps_info] *)

Section Collection.
Context {rt : Runtime}.

Lemma collect_other (items : list (Z * pyval)) (gps : gmap pykey pyval) key :
  key ∉ (λ item, tag_lookup GPSTAGS item.1) <$> items →
  foldl (λ g '(t, val), <[tag_lookup GPSTAGS t := val]> g) gps items !! key
  = gps !! key.
Proof.
  revert gps. induction items as [|[t v] items IH]; intros gps Hkey; [done|].
  simpl in *. apply not_elem_of_cons in Hkey as [Hne Hkey].
  rewrite (IH _ Hkey). by apply lookup_insert_ne.
Qed.

Lemma collect_found (items : list (Z * pyval)) (gps : gmap pykey pyval) t v :
  NoDup ((λ item, tag_lookup GPSTAGS item.1) <$> items) →
  (t, v) ∈ items →
  foldl (λ g '(t, val), <[tag_lookup GPSTAGS t := val]> g) gps items
    !! tag_lookup GPSTAGS t = Some v.
Proof.
  revert gps. induction items as [|[t0 v0] items IH]; intros gps Hnodup Hin.
  - by apply elem_of_nil in Hin.
  - simpl in *. apply NoDup_cons in Hnodup as [Hfresh Hnodup].
    apply elem_of_cons in Hin as [[= -> ->]|Hin].
    + rewrite (collect_other _ _ _ Hfresh). apply lookup_insert_eq.
    + by apply IH.
Qed.

End Collection.

(** X12. When the tag table has one GPS sub-block whose tags have
    distinct names, the tag loop collects it faithfully: every tag of
    the sub-block is found in [gps_info] under its name (or under its
    number when [GPSTAGS] does not know it) with its value, and
    [gps_info] holds nothing else. *)
Theorem gps_block_is_collected {rt : Runtime} before tag items after gps date :
  tag_lookup TAGS tag = inl "GPSInfo" →
  Forall (λ item, tag_lookup TAGS item.1 ≠ inl "GPSInfo") (before ++ after) →
  NoDup ((λ item, tag_lookup GPSTAGS item.1) <$> items) →
  scan_exif (∅, None) (before ++ (tag, VDict items) :: after) = Ok (gps, date) →
  (∀ t v, (t, v) ∈ items → gps !! tag_lookup GPSTAGS t = Some v)
  ∧ (∀ key, key ∉ (λ item, tag_lookup GPSTAGS item.1) <$> items →
       gps !! key = None).
Proof.
  intros Htag [Hbefore Hafter]%Forall_app Hnodup.
  assert (∀ l : exif_table,
            Forall (λ item, tag_lookup TAGS item.1 ≠ inl "GPSInfo") l →
            Forall (λ item, tag_lookup TAGS item.1 = inl "GPSInfo" →
                            item.2 = VDict []) l) as Hweaken.
  { intros l Hl. eapply Forall_impl; [exact Hl|]. by intros item Hne Heq. }
  rewrite scan_exif_app.
  destruct (scan_exif (∅, None) before) as [[gps1 date1]|e] eqn:Hscan1;
    run; [|done].
  rewrite (scan_exif_no_gps _ _ _ _ _ (Hweaken _ Hbefore) Hscan1).
  rewrite Htag. run. intros Hscan2.
  rewrite (scan_exif_no_gps _ _ _ _ _ (Hweaken _ Hafter) Hscan2). split.
  - intros t v Hin. by apply collect_found.
  - intros key Hkey. by rewrite (collect_other _ _ _ Hkey).
Qed.

Lemma gps_block_is_collected_witness :
  Sample.pittsburgh_exif
  = [(274, VInt 6); (306, VStr "2023:06:02 08:30:00");
     (36867, VStr "2023:06:01 10:00:00")]%Z
    ++ (34853%Z, VDict Sample.pittsburgh_gps) :: []
  ∧ (∀ t v, (t, v) ∈ Sample.pittsburgh_gps →
       Sample.pittsburgh_tags !! tag_lookup (GPSTAGS (Runtime := Sample.runtime)) t
       = Some v)
  ∧ (∀ key,
       key ∉ (λ item, tag_lookup (GPSTAGS (Runtime := Sample.runtime)) item.1)
             <$> Sample.pittsburgh_gps →
       Sample.pittsburgh_tags !! key = None).
Proof.
  split; [reflexivity|].
  apply (gps_block_is_collected (rt := Sample.runtime)
           [(274, VInt 6); (306, VStr "2023:06:02 08:30:00");
            (36867, VStr "2023:06:01 10:00:00")]%Z
           34853%Z Sample.pittsburgh_gps [] Sample.pittsburgh_tags
           (Some "2023-06-01 10:00:00")).
  - reflexivity.
  - repeat constructor; vm_compute; discriminate.
  - apply (bool_decide_unpack _). vm_compute. exact I.
  - vm_compute. reflexivity.
Defined.

(** ** Iterations that raise *)

Section Abort.
Context {rt : Runtime}.

Lemma for_each_app {A S} (body : S → A → M S) st xs ys w :
  for_each body st (xs ++ ys) w
  = (st' ← for_each body st xs; for_each body st' ys) w.
Proof.
  revert st w. induction xs as [|x xs IH]; intros st w; simpl; [done|].
  unfold mbind, M_bind. destruct (body st x w) as [[st1|e] w1]; [apply IH | done].
Qed.

Lemma process_image_bad_heading folder st path w md w1 e :
  get_gps_metadata path w = (Ok (Some md), w1) →
  py_float (orientation md) = Raise e →
  process_image folder st path w = (Raise e, w1).
Proof.
  intros Hmd Hh. unfold process_image. run. rewrite Hmd. run. by rewrite Hh.
Qed.

End Abort.

(** X13. A heading that [float] cannot convert (a rational pair, for
    instance) aborts the whole call: when the loop reaches such an image
    the call raises that exception, before the image is saved and
    without writing an archive; the images processed before it stay
    overwritten. *)
Theorem bad_heading_aborts_batch {rt : Runtime}
    folder output fan w names before path after st w0 md w1 e :
  dirs w !! folder = Some names →
  image_paths folder names = before ++ path :: after →
  for_each (process_image folder) no_images before w = (Ok st, w0) →
  get_gps_metadata path w0 = (Ok (Some md), w1) →
  py_float (orientation md) = Raise e →
  create_kmz_with_fan_overlay folder output fan w = (Raise e, w1)
  ∧ files w1 = files w0.
Proof.
  intros Hdir Hpaths Hbefore Hmd Hh. split.
  - unfold create_kmz_with_fan_overlay, listdir. unfold mbind at 1, M_bind at 1.
    rewrite Hdir. unfold mbind at 1, M_bind at 1.
    rewrite Hpaths, for_each_app. unfold mbind at 1, M_bind at 1.
    rewrite Hbefore. simpl. unfold mbind at 1, M_bind at 1.
    by rewrite (process_image_bad_heading _ _ _ _ _ _ _ Hmd Hh).
  - pose proof (read_only_get_gps_metadata path w0) as [Hf _].
    by rewrite Hmd in Hf.
Qed.

Lemma bad_heading_aborts_batch_witness :
  image_paths "/tmp/in" ["p.jpg"] = [] ++ "/tmp/in/p.jpg" :: []
  ∧ (∃ md, get_gps_metadata (rt := Sample.runtime) "/tmp/in/p.jpg"
             Sample.pair_heading_world
           = (Ok (Some md), Sample.pair_heading_world)
           ∧ py_float (rt := Sample.runtime) (orientation md) = Raise TypeError)
  ∧ create_kmz_with_fan_overlay (rt := Sample.runtime) "/tmp/in"
      "/tmp/in/output.kmz" "/tmp/in/Fan.png" Sample.pair_heading_world
    = (Raise TypeError, Sample.pair_heading_world).
Proof.
  split; [vm_compute; reflexivity|].
  split; [eexists; split; [vm_compute; reflexivity | reflexivity]|].
  eapply (bad_heading_aborts_batch (rt := Sample.runtime) "/tmp/in"
            "/tmp/in/output.kmz" "/tmp/in/Fan.png" Sample.pair_heading_world
            ["p.jpg"] [] "/tmp/in/p.jpg" [] no_images Sample.pair_heading_world).
  - vm_compute; reflexivity.
  - vm_compute; reflexivity.
  - reflexivity.
  - vm_compute; reflexivity.
  - reflexivity.
Defined.

(** ** What the image loop keeps *)

Section Loop.
Context {rt : Runtime}.

(** An iteration that returns has skipped the image, or the image has a
    record with a numeric heading and both coordinates. *)
Lemma process_image_inv folder st path w st' w' :
  process_image folder st path w = (Ok st', w') →
  (st' = st ∧ get_gps_metadata path w = (Ok None, w'))
  ∨ (∃ md w1 h lat lon,
       get_gps_metadata path w = (Ok (Some md), w1)
       ∧ py_float (orientation md) = Ok h
       ∧ latitude md = Some lat ∧ longitude md = Some lon).
Proof.
  destruct (total_get_gps_metadata path w) as [r Hr].
  destruct (get_gps_metadata path w) as [r' w1] eqn:Hmd; simpl in *; subst r'.
  destruct r as [md|].
  - destruct (py_float (orientation md)) as [h|e] eqn:Hh,
      (latitude md) as [lat|] eqn:Hlat, (longitude md) as [lon|] eqn:Hlon;
      try (intros _; right; by exists md, w1, h, lat, lon);
      unfold process_image, Image_save, write_file, update_files,
        placemark_description, format_6f, py_add, py_sub; run;
      rewrite Hmd; run; rewrite ?Hh, ?Hlat, ?Hlon; run;
      repeat match goal with
             | |- context [match ?x with _ => _ end] => destruct x eqn:?
             end; by intros [=].
  - rewrite (process_image_skip _ _ _ _ _ Hmd). intros [= <- <-]. by left.
Qed.

(** A property of the loop variables that every returning iteration
    keeps holds when the loop returns. *)
Lemma image_loop_keeps (P : loop_state → Prop) folder paths st w st' w' :
  (∀ st path w st' w',
     process_image folder st path w = (Ok st', w') → P st → P st') →
  for_each (process_image folder) st paths w = (Ok st', w') →
  P st → P st'.
Proof.
  intros Hstep. revert st w.
  induction paths as [|path paths IH]; intros st w; simpl.
  - by intros [= <- <-].
  - unfold mbind, M_bind.
    destruct (process_image folder st path w) as [[st1|e] w1] eqn:Hone;
      [|by intros [=]].
    intros Hrest HP. eapply IH; [exact Hrest|]. by eapply Hstep.
Qed.

Lemma process_image_names folder st path w st' w' :
  process_image folder st path w = (Ok st', w') →
  feature_name <$> kml st
  = flat_map (λ p, ["Overlay - " +:+ p.1; p.1]) (kmz_images st) →
  feature_name <$> kml st'
  = flat_map (λ p, ["Overlay - " +:+ p.1; p.1]) (kmz_images st').
Proof.
  intros Hrun Hst.
  destruct (process_image_inv _ _ _ _ _ _ Hrun)
    as [[-> _]|(md & w1 & h & lat & lon & Hmd & Hh & Hlat & Hlon)]; [done|].
  destruct (process_image_geolocated folder st _ _ _ _ _ _ _ Hmd Hh Hlat Hlon)
    as (img & ct & corrected & w2 & _ & _ & Heq).
  rewrite Heq in Hrun. injection Hrun as <- _. simpl.
  rewrite fmap_app, flat_map_app, Hst. simpl. by rewrite ?app_nil_r.
Qed.

Lemma process_image_well_formed folder st path w st' w' :
  process_image folder st path w = (Ok st', w') →
  Forall well_formed_feature (kml st) →
  Forall well_formed_feature (kml st').
Proof.
  intros Hrun Hst.
  destruct (process_image_inv _ _ _ _ _ _ Hrun)
    as [[-> _]|(md & w1 & h & lat & lon & Hmd & Hh & Hlat & Hlon)]; [done|].
  destruct (process_image_geolocated folder st _ _ _ _ _ _ _ Hmd Hh Hlat Hlon)
    as (img & ct & corrected & w2 & _ & _ & Heq).
  rewrite Heq in Hrun. injection Hrun as <- _. simpl.
  apply Forall_app. split; [done|]. repeat constructor; simpl.
  - pose proof (Qabs_nonneg h). lra.
  - field.
  - field.
  - by exists lon, lat, (altitude md).
Qed.

(** The pairs recorded by the loop come from the paths it was given, in
    their order. *)
Lemma image_loop_pairs folder paths st w st' w' :
  for_each (process_image folder) st paths w = (Ok st', w') →
  ∃ kept, sublist kept paths
          ∧ kmz_images st'
            = kmz_images st
              ++ ((λ p, (basename p, join folder (basename p))) <$> kept).
Proof.
  revert st w. induction paths as [|path paths IH]; intros st w; simpl.
  - intros [= <- <-]. exists []. split; [done|]. by rewrite app_nil_r.
  - unfold mbind, M_bind.
    destruct (process_image folder st path w) as [[st1|e] w1] eqn:Hone;
      [|by intros [=]].
    intros Hrest. destruct (IH _ _ Hrest) as (kept & Hsub & Hkept).
    destruct (process_image_inv _ _ _ _ _ _ Hone)
      as [[-> _]|(md & w0 & h & lat & lon & Hmd & Hh & Hlat & Hlon)].
    + exists kept. split; [by apply sublist_cons | done].
    + destruct (process_image_geolocated folder st _ _ _ _ _ _ _ Hmd Hh Hlat Hlon)
        as (img & ct & corrected & w2 & _ & _ & Heq).
      rewrite Heq in Hone. injection Hone as <- _. simpl in Hkept.
      exists (path :: kept). split; [by apply sublist_skip|].
      rewrite Hkept, <- app_assoc. done.
Qed.

End Loop.

(** X14. When the image loop returns, the document lists, for each
    recorded image in order, one overlay named "Overlay - <name>"
    followed by one placemark named <name>, and nothing else; and the
    recorded pairs are (base name, directory joined with base name) of
    some of the candidate paths, in the order of the listing. *)
Theorem document_follows_pairs {rt : Runtime} folder paths w st w' :
  for_each (process_image folder) no_images paths w = (Ok st, w') →
  feature_name <$> kml st
  = flat_map (λ p, ["Overlay - " +:+ p.1; p.1]) (kmz_images st)
  ∧ ∃ kept, sublist kept paths
            ∧ kmz_images st
              = (λ p, (basename p, join folder (basename p))) <$> kept.
Proof.
  intros Hloop. split.
  - eapply (image_loop_keeps
              (λ st, feature_name <$> kml st
                     = flat_map (λ p, ["Overlay - " +:+ p.1; p.1]) (kmz_images st)));
      [apply process_image_names | exact Hloop | done].
  - destruct (image_loop_pairs _ _ _ _ _ _ Hloop) as (kept & Hsub & Hkept).
    by exists kept.
Qed.

Lemma document_follows_pairs_witness :
  ∃ st w',
    for_each (process_image (rt := Sample.runtime) "/tmp/in") no_images
      (image_paths "/tmp/in" ["a.JPG"; "notes.txt"]) Sample.annotated_world
    = (Ok st, w')
    ∧ feature_name <$> kml st = ["Overlay - a.JPG"; "a.JPG"]
    ∧ kmz_images st = [("a.JPG", "/tmp/in/a.JPG")].
Proof.
  do 2 eexists. split; [vm_compute; reflexivity|].
  match goal with |- feature_name <$> kml ?st = _ ∧ _ =>
    destruct (document_follows_pairs (rt := Sample.runtime) "/tmp/in"
                (image_paths "/tmp/in" ["a.JPG"; "notes.txt"])
                Sample.annotated_world st
                (World (<["/tmp/in/a.JPG" :=
                           File (Picture (rotate (Runtime := Sample.runtime)
                                            (Sample.photo Sample.pittsburgh_exif)
                                            270 true))
                             (clock (Runtime := Sample.runtime))]>
                          (files Sample.annotated_world))
                   (dirs Sample.annotated_world) []))
      as [Hnames _]
  end; [vm_compute; reflexivity|].
  split; [exact Hnames | reflexivity].
Defined.

(** X15. When the image loop returns, every node of the document is
    well formed: each overlay shows Fan.png, has a rotation that is not
    positive and a box of 0.0001 degrees on both axes; each placemark
    has one coordinate triple without [None], the fixed icon and the
    absolute altitude mode. *)
Theorem document_is_well_formed {rt : Runtime} folder paths w st w' :
  for_each (process_image folder) no_images paths w = (Ok st, w') →
  Forall well_formed_feature (kml st).
Proof.
  intros Hloop.
  eapply (image_loop_keeps (λ st, Forall well_formed_feature (kml st)));
    [apply process_image_well_formed | exact Hloop | constructor].
Qed.

Lemma document_is_well_formed_witness :
  ∃ st w',
    for_each (process_image (rt := Sample.runtime) "/tmp/in") no_images
      (image_paths "/tmp/in" ["a.JPG"; "notes.txt"]) Sample.annotated_world
    = (Ok st, w')
    ∧ List.length (kml st) = 2%nat
    ∧ Forall well_formed_feature (kml st).
Proof.
  do 2 eexists. split; [vm_compute; reflexivity|]. split; [reflexivity|].
  eapply (document_is_well_formed (rt := Sample.runtime) "/tmp/in"
            (image_paths "/tmp/in" ["a.JPG"; "notes.txt"])
            Sample.annotated_world).
  vm_compute; reflexivity.
Defined.

(** X16. A directory without any entry ending in .jpg, .jpeg or .png
    makes the call fail with the "no valid GPS metadata" error at once:
    no file is opened and nothing changes, the page included. *)
Theorem no_candidates_no_archive {rt : Runtime} folder output fan w names :
  dirs w !! folder = Some names →
  Forall (λ f, is_candidate f = false) names →
  create_kmz_with_fan_overlay folder output fan w
  = (Raise (ValueError "No valid GPS metadata found in the uploaded images."), w).
Proof.
  intros Hdir Hnames.
  assert (image_paths folder names = []) as Hpaths.
  { clear Hdir. unfold image_paths.
    induction Hnames as [|f names Hf _ IH]; [done|].
    rewrite filter_cons_False; [exact IH|]. rewrite Hf. simpl. tauto. }
  unfold create_kmz_with_fan_overlay, listdir, mbind, M_bind.
  by rewrite Hdir, Hpaths.
Qed.

Lemma no_candidates_no_archive_witness :
  dirs Sample.text_only_world !! "/tmp/in" = Some ["notes.txt"; "track.gpx"]
  ∧ Forall (λ f, is_candidate f = false) ["notes.txt"; "track.gpx"]
  ∧ create_kmz_with_fan_overlay (rt := Sample.runtime) "/tmp/in"
      "/tmp/in/output.kmz" "/tmp/in/Fan.png" Sample.text_only_world
    = (Raise (ValueError "No valid GPS metadata found in the uploaded images."),
       Sample.text_only_world).
Proof.
  split; [vm_compute; reflexivity|].
  split; [repeat constructor|].
  apply (no_candidates_no_archive (rt := Sample.runtime) "/tmp/in"
           "/tmp/in/output.kmz" "/tmp/in/Fan.png" Sample.text_only_world
           ["notes.txt"; "track.gpx"]);
    [vm_compute; reflexivity | repeat constructor].
Defined.

(** ** The files a call can change *)

Section Footprint.
Context {rt : Runtime}.

Lemma alters_read_only {A} footprint (m : M A) : read_only m → alters footprint m.
Proof. intros Hm w. destruct (Hm w) as [-> ->]. done. Qed.

Lemma alters_more {A} (P Q : string → Prop) (m : M A) :
  (∀ path, P path → Q path) → alters P m → alters Q m.
Proof.
  intros HPQ Hm w. destruct (Hm w) as [Hd Hf]. split; [done|].
  intros path Hpath. apply Hf. auto.
Qed.

Lemma alters_bind {A B} footprint (m : M A) (f : A → M B) :
  alters footprint m → (∀ a, alters footprint (f a)) →
  alters footprint (m ≫= f).
Proof.
  intros Hm Hf w. unfold mbind, M_bind. destruct (Hm w) as [Hd Hfs].
  destruct (m w) as [[a|e] w1]; simpl in *; [|done].
  destruct (Hf a w1) as [Hd' Hfs']. split; [congruence|].
  intros path Hpath. rewrite Hfs', Hfs; done.
Qed.

Lemma alters_ret {A} footprint (a : A) : alters footprint (mret a).
Proof. apply alters_read_only, read_only_ret. Qed.

Lemma alters_lift {A} footprint (r : result A) : alters footprint (lift r).
Proof. apply alters_read_only, read_only_lift. Qed.

Lemma alters_read_file footprint path : alters footprint (read_file path).
Proof. apply alters_read_only, read_only_read_file. Qed.

Lemma alters_path_exists footprint path : alters footprint (path_exists path).
Proof. intros w. done. Qed.

Lemma alters_write_file (footprint : string → Prop) path c :
  footprint path → alters footprint (write_file path c).
Proof.
  intros Hpath w. split; [done|]. intros p Hp. simpl.
  apply lookup_insert_ne. by intros ->.
Qed.

Lemma alters_os_rename (footprint : string → Prop) src dst :
  footprint src → footprint dst → alters footprint (os_rename src dst).
Proof.
  intros Hsrc Hdst. apply alters_bind; [apply alters_read_file|]. intros f w.
  split; [done|]. intros p Hp. simpl.
  rewrite lookup_insert_ne by (by intros ->).
  apply lookup_delete_ne. by intros ->.
Qed.

Lemma alters_copy2 (footprint : string → Prop) src dst :
  footprint dst → alters footprint (copy2 src dst).
Proof.
  intros Hdst. apply alters_bind; [apply alters_read_file|]. intros f.
  destruct (String.eqb src dst); [apply alters_lift | by apply alters_write_file].
Qed.

Lemma alters_os_remove (footprint : string → Prop) path :
  footprint path → alters footprint (os_remove path).
Proof.
  intros Hpath. apply alters_bind; [apply alters_read_file|]. intros _ w.
  split; [done|]. intros p Hp. simpl. apply lookup_delete_ne. by intros ->.
Qed.

Lemma alters_kmz_write (footprint : string → Prop) output entries path arcname :
  footprint output → alters footprint (kmz_write output entries path arcname).
Proof.
  intros Hout. apply alters_bind; [apply alters_read_file|]. intros f.
  apply alters_bind; [by apply alters_write_file|]. intros; apply alters_ret.
Qed.

Lemma alters_for_each {A S} footprint (body : S → A → M S) st xs :
  (∀ st x, x ∈ xs → alters footprint (body st x)) →
  alters footprint (for_each body st xs).
Proof.
  revert st. induction xs as [|x xs IH]; intros st Hbody; simpl.
  - apply alters_ret.
  - apply alters_bind; [apply Hbody; left|]. intros st'. apply IH.
    intros st0 y Hy. apply Hbody. by right.
Qed.

(** An iteration writes one file at most: the corrected copy. *)
Lemma alters_process_image (footprint : string → Prop) folder st path :
  footprint (join folder (basename path)) →
  alters footprint (process_image folder st path).
Proof.
  intros Hpath. unfold process_image.
  apply alters_bind; [apply alters_read_only, read_only_get_gps_metadata|].
  intros [md|]; [|apply alters_ret].
  apply alters_bind; [apply alters_lift|]. intros h.
  apply alters_bind; [apply alters_read_only, read_only_Image_open|]. intros image.
  apply alters_bind;
    [apply alters_read_only, read_only_correct_image_orientation|].
  intros corrected.
  apply alters_bind; [by apply alters_write_file|]. intros _.
  repeat (apply alters_bind; [apply alters_lift|]; intros ?).
  apply alters_ret.
Qed.

End Footprint.

(** X17. Whether the call returns or raises, it leaves the directories
    alone and every file other than: the corrected copies (the directory
    joined with the base name of a candidate path), the fan image at its
    source and at its destination, the copy of the logo, doc.kml in the
    directory, and the output path. *)
Theorem untouched_files {rt : Runtime} folder output fan w path :
  (∀ names, dirs w !! folder = Some names →
     path ∉ (λ p, join folder (basename p)) <$> image_paths folder names) →
  path ≠ fan →
  path ≠ join folder "Fan.png" →
  path ≠ join folder "Construct_Solutions_Logo_HALF.png" →
  path ≠ join folder "doc.kml" →
  path ≠ output →
  files (create_kmz_with_fan_overlay folder output fan w).2 !! path
  = files w !! path
  ∧ dirs (create_kmz_with_fan_overlay folder output fan w).2 = dirs w.
Proof.
  intros Himages Hfan Hdest Hlogo Hkml Hout.
  remember (create_kmz_with_fan_overlay folder output fan w) as r eqn:Hr.
  unfold create_kmz_with_fan_overlay, listdir in Hr.
  unfold mbind at 1, M_bind at 1 in Hr.
  destruct (dirs w !! folder) as [names|] eqn:Hdir; [|by subst r].
  specialize (Himages names eq_refl).
  set (footprint :=
         λ p, p ∈ (λ p, join folder (basename p)) <$> image_paths folder names
              ∨ p = fan ∨ p = join folder "Fan.png"
              ∨ p = join folder "Construct_Solutions_Logo_HALF.png"
              ∨ p = join folder "doc.kml" ∨ p = output).
  match type of Hr with r = ?m w =>
    assert (alters footprint m) as Halters
  end.
  { apply alters_bind.
    { apply alters_for_each. intros st p Hp. apply alters_process_image.
      left. apply list_elem_of_fmap. by exists p. }
    intros st. destruct (negb (has_data st)); [apply alters_lift|].
    repeat first
      [ apply alters_ret
      | apply alters_path_exists
      | apply alters_write_file; unfold footprint; tauto
      | apply alters_os_rename; unfold footprint; tauto
      | apply alters_copy2; unfold footprint; tauto
      | apply alters_os_remove; unfold footprint; tauto
      | apply alters_kmz_write; unfold footprint; tauto
      | apply alters_for_each; intros ? [? ?] _
      | apply alters_bind; [|intros ?]
      | match goal with |- alters _ (if ?b then _ else _) => destruct b end ]. }
  destruct (Halters w) as [Hd Hf]. rewrite <- Hr in Hd, Hf.
  split; [|done]. apply Hf.
  unfold footprint. intros [?|[?|[?|[?|[?|?]]]]]; done.
Qed.

Lemma untouched_files_witness :
  files (create_kmz_with_fan_overlay (rt := Sample.runtime) "/tmp/in"
           "/tmp/in/output.kmz" "/tmp/in/Fan.png" Sample.annotated_world).2
    !! "/tmp/in/notes.txt"
  = files Sample.annotated_world !! "/tmp/in/notes.txt"
  ∧ dirs (create_kmz_with_fan_overlay (rt := Sample.runtime) "/tmp/in"
            "/tmp/in/output.kmz" "/tmp/in/Fan.png" Sample.annotated_world).2
    = dirs Sample.annotated_world.
Proof.
  apply (untouched_files (rt := Sample.runtime) "/tmp/in" "/tmp/in/output.kmz"
           "/tmp/in/Fan.png" Sample.annotated_world "/tmp/in/notes.txt").
  - intros names Hnames.
    assert (names = ["a.JPG"; "notes.txt"]) as ->.
    { vm_compute in Hnames. by injection Hnames. }
    apply (bool_decide_unpack _). vm_compute. exact I.
  - discriminate.
  - intros H. vm_compute in H. discriminate H.
  - intros H. vm_compute in H. discriminate H.
  - intros H. vm_compute in H. discriminate H.
  - discriminate.
Defined.
